(** * go-api-template: the users service, its store and the server process

    A shallow embedding of the hand-written Go code of the repository:

    - [internal/database.go], [internal/server.go]: the [Database] record
      store and the [UsersServer] facade that forwards to it;
    - [internal/users/service.go], [list_users.go], [create_user.go]: the
      [Service] that talks to the SQL handle directly;
    - [migrations/*_create_users.up.sql]: the [users] table and its sequence;
    - [cmd/server/main.go]: [getEnvOrDefault], the flags, [runMigrations],
      [main] and the goroutine that handles the termination signal;
    - [internal/otel.go]: the two telemetry initialisers and their shutdowns;
    - the log handler that adds the trace context to each record.

    [database/sql], the PostgreSQL server and the other libraries are not
    part of the repository.  They appear as small executable models whose
    behaviour is stated next to each definition. *)

From Stdlib Require Import ZArith String Ascii List Lia DecimalString.
From stdpp Require Import base option list gmap strings.

(** ** Go errors *)

(** An [error] value.  The sentinels that the code compares against by
    identity are constructors of their own; [errors_New] stands for any other
    error built from a message (driver and server errors included) and
    [Errorf_w] for [fmt.Errorf("msg: %w", cause)]. *)
Inductive error : Type :=
| ErrNoChange
| ErrNoRows
| ErrServerClosed
| Canceled
| DeadlineExceeded
| errors_New (msg : string)
| Errorf_w (msg : string) (cause : error).

#[global] Instance error_eq_dec : EqDecision error.
Proof. solve_decision. Defined.

(** Results of library calls that return [(T, error)] with exactly one of the
    two set. *)
Inductive result (A : Type) : Type :=
| Ok (a : A)
| Err (e : error).
Arguments Ok {A} a.
Arguments Err {A} e.

#[global] Instance result_bind : MBind result :=
  λ A B f m, match m with Ok a => f a | Err e => Err e end.

(** ** [strconv] *)

Definition digit_of (c : ascii) : option Z :=
  let n := Z.of_N (N_of_ascii c) in
  if bool_decide (48 ≤ n ≤ 57)%Z then Some (n - 48)%Z else None.

Fixpoint parse_digits (s : string) (acc : Z) : option Z :=
  match s with
  | EmptyString => Some acc
  | String c rest =>
      match digit_of c with
      | Some d => parse_digits rest (10 * acc + d)%Z
      | None => None
      end
  end.

(** [strconv.ParseInt(s, 10, bits)]: an optional sign, then at least one
    decimal digit and nothing else; the value must fit in [bits] bits. *)
Definition ParseInt (s : string) (bits : Z) : result Z :=
  let '(neg, body) :=
    match s with
    | String "-"%char rest => (true, rest)
    | String "+"%char rest => (false, rest)
    | _ => (false, s)
    end in
  match body with
  | EmptyString => Err (errors_New "invalid syntax")
  | _ =>
      match parse_digits body 0 with
      | None => Err (errors_New "invalid syntax")
      | Some n =>
          let v := if neg then (- n)%Z else n in
          if bool_decide (- 2 ^ (bits - 1) ≤ v < 2 ^ (bits - 1))%Z
          then Ok v
          else Err (errors_New "value out of range")
      end
  end.

(** [strconv.FormatInt(n, 10)]. *)
Definition FormatInt (n : Z) : string := NilZero.string_of_int (Z.to_int n).

(** ** [database/sql] *)

(** A [driver.Value] as the drivers used here produce them: SQL NULL, an
    integer, a text. *)
Inductive Value : Type :=
| VNull
| VInt64 (n : Z)
| VString (s : string).

#[global] Instance Value_eq_dec : EqDecision Value.
Proof. solve_decision. Defined.

(** [convertAssign] into an [*int64] destination. *)
Definition convertAssign_int64 (src : Value) : result Z :=
  match src with
  | VInt64 n => Ok n
  | VNull => Err (errors_New "converting NULL to int64 is unsupported")
  | VString s =>
      match ParseInt s 64 with
      | Ok n => Ok n
      | Err _ =>
          Err (errors_New "converting driver.Value type string to a int64")
      end
  end.

(** [convertAssign] into a [*string] destination. *)
Definition convertAssign_string (src : Value) : result string :=
  match src with
  | VString s => Ok s
  | VInt64 n => Ok (FormatInt n)
  | VNull => Err (errors_New "converting NULL to string is unsupported")
  end.

(** [Rows.Scan] wraps a conversion failure with the index of the column. *)
Definition scan_col {A : Type} (i : Z) (conv : Value → result A) (src : Value)
  : result A :=
  match conv src with
  | Ok a => Ok a
  | Err e =>
      Err (Errorf_w ("sql: Scan error on column index " +:+ FormatInt i) e)
  end.

(** [sql.Rows]: the rows that [Next] delivers, in order, and the error that
    ended the iteration early, if any (what [Rows.Err] reports once [Next]
    has returned false). *)
Record Rows : Type := {
  rows_delivered : list (list Value);
  rows_lasterr : option error
}.

(** [sql.Row], the result of [QueryRowContext]. *)
Record Row : Type := {
  row_err : option error;
  row_rows : option Rows
}.

(** [context.Context], reduced to what [ctx.Err()] reports. *)
Record Context : Type := { ctx_Err : option error }.

Definition context_Background : Context := {| ctx_Err := None |}.

(** The part of [sql.DB] the code uses.  A query may change the state behind
    the handle, so the handle is threaded through. *)
Class Queryer (DB : Type) : Type :=
  QueryContext : DB → Context → string → list Value → DB * result Rows.

(** [QueryRowContext] of the handle: run the query, keep rows or error. *)
Definition QueryRowContext {DB : Type} `{!Queryer DB}
    (db : DB) (ctx : Context) (query : string) (args : list Value) : DB * Row :=
  let '(db', r) := QueryContext db ctx query args in
  (db', match r with
        | Ok rows => {| row_err := None; row_rows := Some rows |}
        | Err e => {| row_err := Some e; row_rows := None |}
        end).

Definition Row_Err (r : Row) : option error := row_err r.

(** [Row.Scan] with one destination: the pending error first, then the
    first row or [ErrNoRows] (or the iteration error), then the row scan. *)
Definition Row_Scan {A : Type} (r : Row) (scan : list Value → result A)
  : result A :=
  match row_err r with
  | Some e => Err e
  | None =>
      match row_rows r with
      | None => Err ErrNoRows
      | Some rows =>
          match rows_delivered rows with
          | [] =>
              match rows_lasterr rows with
              | Some e => Err e
              | None => Err ErrNoRows
              end
          | cols :: _ => scan cols
          end
      end
  end.

(** ** Messages of [userspb] (generated code) *)

Record User : Type := { Id : Z; Email : string; Name : string }.

#[global] Instance User_eq_dec : EqDecision User.
Proof. solve_decision. Defined.

Record CreateUserRequest : Type := { req_Email : string; req_Name : string }.

Record CreateUserResponse : Type := { User_ : option User }.

Record ListUsersRequest : Type := { }.

Record ListUsersResponse : Type := { Users : list User }.

(** The generated getters accept a nil request. *)
Definition GetEmail (req : option CreateUserRequest) : string :=
  match req with Some r => req_Email r | None => "" end.

Definition GetName (req : option CreateUserRequest) : string :=
  match req with Some r => req_Name r | None => "" end.

(** [rows.Scan(&user.Id, &user.Email, &user.Name)]. *)
Definition Scan_User (cols : list Value) : result User :=
  match cols with
  | [c0; c1; c2] =>
      id ← scan_col 0 convertAssign_int64 c0;
      email ← scan_col 1 convertAssign_string c1;
      name ← scan_col 2 convertAssign_string c2;
      Ok {| Id := id; Email := email; Name := name |}
  | _ => Err (errors_New "sql: wrong number of destination arguments in Scan")
  end.

(** [row.Scan(&userID)]. *)
Definition Scan_userID (cols : list Value) : result Z :=
  match cols with
  | [c0] => scan_col 0 convertAssign_int64 c0
  | _ => Err (errors_New "sql: wrong number of destination arguments in Scan")
  end.

(** The loop [for rows.Next() { ... rows.Scan ... users = append(users, &user) }]
    followed by the final return.  The loop stops at the first row that fails
    to scan; the code does not consult [rows.Err()] after the loop. *)
Fixpoint scan_loop (pending : list (list Value)) (users : list User)
  : option ListUsersResponse * option error :=
  match pending with
  | [] => (Some {| Users := users |}, None)
  | cols :: rest =>
      match Scan_User cols with
      | Err err => (None, Some err)
      | Ok user => scan_loop rest (users ++ [user])
      end
  end.

Definition select_users_sql : string := "SELECT * FROM users".

Definition insert_user_sql : string :=
  "INSERT INTO users (email, name) VALUES ($1, $2) RETURNING id;".

(** ** Package [internal]: [database.go] and [server.go] *)

Module Database.
Record t (DB : Type) : Type := mk { db : DB }.
Arguments mk {DB} db.
Arguments db {DB} _.

Section Methods.
Context {DB : Type} `{!Queryer DB}.

Definition GetUsers (d : t DB) (ctx : Context)
  : t DB * (option ListUsersResponse * option error) :=
  let '(db', r) := QueryContext (db d) ctx select_users_sql [] in
  match r with
  | Err err => (mk db', (None, Some err))
  | Ok rows => (mk db', scan_loop (rows_delivered rows) [])
  end.

Definition CreateUser (d : t DB) (ctx : Context)
    (req : option CreateUserRequest)
  : t DB * (option CreateUserResponse * option error) :=
  let '(db', row) :=
    QueryRowContext (db d) ctx insert_user_sql
      [VString (GetEmail req); VString (GetName req)] in
  match Row_Err row with
  | Some err => (mk db', (None, Some err))
  | None =>
      match Row_Scan row Scan_userID with
      | Err err => (mk db', (None, Some err))
      | Ok userID =>
          let user :=
            {| Id := userID; Email := GetEmail req; Name := GetName req |} in
          (mk db', (Some {| User_ := Some user |}, None))
      end
  end.
End Methods.
End Database.

Module UsersServer.
Record t (DB : Type) : Type := mk { db : Database.t DB }.
Arguments mk {DB} db.
Arguments db {DB} _.

Section Methods.
Context {DB : Type} `{!Queryer DB}.

Definition CreateUser (s : t DB) (ctx : Context)
    (req : option CreateUserRequest)
  : t DB * (option CreateUserResponse * option error) :=
  let '(d', out) := Database.CreateUser (db s) ctx req in (mk d', out).

Definition ListUsers (s : t DB) (ctx : Context) (req : ListUsersRequest)
  : t DB * (option ListUsersResponse * option error) :=
  let '(d', out) := Database.GetUsers (db s) ctx in (mk d', out).
End Methods.
End UsersServer.

(** ** Package [users]: [service.go], [list_users.go], [create_user.go] *)

Module Service.
(** The [logger] field plays no part in the two request handlers. *)
Record t (DB : Type) : Type := mk { db : DB }.
Arguments mk {DB} db.
Arguments db {DB} _.

Section Methods.
Context {DB : Type} `{!Queryer DB}.

Definition ListUsers (s : t DB) (ctx : Context) (req : ListUsersRequest)
  : t DB * (option ListUsersResponse * option error) :=
  let '(db', r) := QueryContext (db s) ctx select_users_sql [] in
  match r with
  | Err err => (mk db', (None, Some err))
  | Ok rows => (mk db', scan_loop (rows_delivered rows) [])
  end.

Definition CreateUser (s : t DB) (ctx : Context)
    (req : option CreateUserRequest)
  : t DB * (option CreateUserResponse * option error) :=
  let '(db', row) :=
    QueryRowContext (db s) ctx insert_user_sql
      [VString (GetEmail req); VString (GetName req)] in
  match Row_Err row with
  | Some err => (mk db', (None, Some err))
  | None =>
      match Row_Scan row Scan_userID with
      | Err err => (mk db', (None, Some err))
      | Ok userID =>
          let user :=
            {| Id := userID; Email := GetEmail req; Name := GetName req |} in
          (mk db', (Some {| User_ := Some user |}, None))
      end
  end.
End Methods.
End Service.

(** ** The store behind the handle: PostgreSQL after the migration

    [migrations/*_create_users.up.sql] creates

      CREATE SEQUENCE IF NOT EXISTS seq_users_id START 1;
      CREATE TABLE IF NOT EXISTS users (
          id INTEGER PRIMARY KEY DEFAULT nextval('seq_users_id'),
          email TEXT NOT NULL,
          name TEXT NOT NULL);

    The model below keeps the sequence and the rows of that table and answers
    the two statements the code issues.  Any other statement, and a parameter
    list of another shape than the code passes, is answered with an error. *)

Module Pg.
(** A row of [users]; the column types are enforced by the server. *)
Record row : Type := { id : Z; email : string; name : string }.

(** [seq_users_id] is the value the next [nextval] hands out. *)
Record server : Type := { seq_users_id : Z; users : list row }.

(** A connection: the server and the reason the link is down, if it is. *)
Record conn : Type := { srv : server; link : option error }.

(** The state right after the migration ran on an empty database. *)
Definition migrated : server := {| seq_users_id := 1; users := [] |}.

Definition connect (s : server) : conn := {| srv := s; link := None |}.

(** Largest value of a sequence (bigint) and of an INTEGER column. *)
Definition seq_max : Z := 2 ^ 63 - 1.
Definition int4_max : Z := 2 ^ 31 - 1.

(** A text value cannot hold the NUL character. *)
Definition valid_text (s : string) : bool :=
  forallb (λ c, negb (Ascii.eqb c zero)) (list_ascii_of_string s).

Definition ids (s : server) : list Z := id <$> users s.

(** The entity a stored row reads as. *)
Definition to_User (r : row) : User :=
  {| Id := id r; Email := email r; Name := name r |}.

(** [SELECT * FROM users]: every row, columns in table order. *)
Definition select_users (s : server) : list (list Value) :=
  (λ r, [VInt64 (id r); VString (email r); VString (name r)]) <$> users s.

(** [INSERT INTO users (email, name) VALUES ($1, $2) RETURNING id].  The
    parameters are checked when they are bound, before the statement runs.
    The default of [id] takes the next value of the sequence, and the
    sequence keeps that step also when the row is then refused (value too
    large for INTEGER, or primary key taken). *)
Definition insert_user (s : server) (e n : string)
  : server * result (list (list Value)) :=
  if negb (valid_text e && valid_text n) then
    (s, Err (errors_New "pq: invalid byte sequence for encoding"))
  else
    let v := seq_users_id s in
    if bool_decide (seq_max < v)%Z then
      (s, Err (errors_New "pq: nextval: reached maximum value of sequence"))
    else
      let s1 := {| seq_users_id := (v + 1)%Z; users := users s |} in
      if bool_decide (int4_max < v)%Z then
        (s1, Err (errors_New "pq: integer out of range"))
      else if bool_decide (v ∈ ids s) then
        (s1, Err (errors_New "pq: duplicate key value violates unique constraint"))
      else
        ({| seq_users_id := (v + 1)%Z;
            users := users s ++ [{| id := v; email := e; name := n |}] |},
         Ok [[VInt64 v]]).

Definition exec (s : server) (query : string) (args : list Value)
  : server * result Rows :=
  if decide (query = select_users_sql) then
    match args with
    | [] => (s, Ok {| rows_delivered := select_users s; rows_lasterr := None |})
    | _ => (s, Err (errors_New "pq: got parameters for a statement without any"))
    end
  else if decide (query = insert_user_sql) then
    match args with
    | [VString e; VString n] =>
        let '(s', r) := insert_user s e n in
        (s', match r with
             | Ok rs => Ok {| rows_delivered := rs; rows_lasterr := None |}
             | Err err => Err err
             end)
    | _ => (s, Err (errors_New "pq: unexpected parameters"))
    end
  else (s, Err (errors_New "pq: statement outside the model")).

(** The handle refuses a context that is already done, then a link that is
    down, and otherwise lets the server run the statement. *)
#[global] Instance queryer : Queryer conn :=
  λ c ctx query args,
    match ctx_Err ctx with
    | Some err => (c, Err err)
    | None =>
        match link c with
        | Some err => (c, Err err)
        | None =>
            let '(s', r) := exec (srv c) query args in
            ({| srv := s'; link := link c |}, r)
        end
    end.

(** What holds of the table and the sequence in every state the code can
    reach from [migrated]: the sequence is ahead of every stored id. *)
Definition ahead (s : server) : Prop :=
  (1 ≤ seq_users_id s)%Z ∧ Forall (λ i, 1 ≤ i < seq_users_id s)%Z (ids s).

(** The states a run of the service reaches from [migrated]: the stored ids
    are 1, 2, ..., k in insertion order, and the sequence stands right after
    them, or further once the INTEGER range is used up. *)
Definition dense (s : server) : Prop :=
  let k := Z.of_nat (length (users s)) in
  ids s = seqZ 1 k
  ∧ (k ≤ int4_max)%Z
  ∧ (seq_users_id s = k + 1 ∨ k = int4_max ∧ int4_max < seq_users_id s)%Z.
End Pg.

(** ** A scripted handle

    The handle the unit tests build with [sqlmock]: the replies are fixed in
    advance and handed out in order.  The statement text and the arguments
    are not compared with an expectation here. *)

Module Scripted.
Definition t : Type := list (result Rows).

#[global] Instance queryer : Queryer t :=
  λ script ctx query args,
    match script with
    | [] => ([], Err (errors_New "all expectations were already fulfilled"))
    | reply :: rest => (rest, reply)
    end.
End Scripted.

(** ** Runs of the service against the migrated store *)

Inductive op : Type :=
| DoCreateUser (ctx : Context) (req : option CreateUserRequest)
| DoListUsers (ctx : Context) (req : ListUsersRequest)
| DoLink (state : option error).

Inductive reply : Type :=
| CreateUserReply (out : option CreateUserResponse * option error)
| ListUsersReply (out : option ListUsersResponse * option error)
| LinkReply.

Definition step (s : Service.t Pg.conn) (o : op) : Service.t Pg.conn * reply :=
  match o with
  | DoCreateUser ctx req =>
      let '(s', out) := Service.CreateUser s ctx req in (s', CreateUserReply out)
  | DoListUsers ctx req =>
      let '(s', out) := Service.ListUsers s ctx req in (s', ListUsersReply out)
  | DoLink state =>
      (Service.mk {| Pg.srv := Pg.srv (Service.db s); Pg.link := state |},
       LinkReply)
  end.

Fixpoint run (s : Service.t Pg.conn) (ops : list op)
  : Service.t Pg.conn * list reply :=
  match ops with
  | [] => (s, [])
  | o :: rest =>
      let '(s1, r) := step s o in
      let '(s2, rs) := run s1 rest in
      (s2, r :: rs)
  end.

(** The identifier a successful [CreateUser] returned. *)
Definition created_id (out : option CreateUserResponse * option error)
  : option Z :=
  match out with
  | (Some {| User_ := Some u |}, None) => Some (Id u)
  | _ => None
  end.

Definition assigned_ids (rs : list reply) : list Z :=
  omap (λ r, match r with
             | CreateUserReply out => created_id out
             | _ => None
             end) rs.

Definition fresh_service : Service.t Pg.conn :=
  Service.mk (Pg.connect Pg.migrated).

Definition table_of (s : Service.t Pg.conn) : list Pg.row :=
  Pg.users (Pg.srv (Service.db s)).

(** ** [cmd/server/main.go]: configuration *)

(** [os.Getenv]: a variable that is not set reads as the empty string. *)
Definition Getenv (env : gmap string string) (key : string) : string :=
  default "" (env !! key).

Definition getEnvOrDefault (env : gmap string string)
    (key defaultValue : string) : string :=
  let value := Getenv env key in
  if decide (value ≠ "") then value else defaultValue.

(** [flag.String(name, value, usage)] after [flag.Parse()]: the value given on
    the command line, or else [value]. *)
Definition flag_String (flags : gmap string string) (name value : string)
  : string :=
  default value (flags !! name).

Module Config.
Record t : Type := mk {
  Host : string;
  Port : string;
  User : string;
  Password : string;
  DBName : string;
  SSLMode : string
}.
End Config.

Definition dbHost (env flags : gmap string string) : string :=
  flag_String flags "db-host" (getEnvOrDefault env "DB_HOST" "localhost").
Definition dbPort (env flags : gmap string string) : string :=
  flag_String flags "db-port" (getEnvOrDefault env "DB_PORT" "5432").
Definition dbUser (env flags : gmap string string) : string :=
  flag_String flags "db-user" (getEnvOrDefault env "DB_USER" "postgres").
Definition dbPassword (env flags : gmap string string) : string :=
  flag_String flags "db-password"
    (getEnvOrDefault env "DB_PASSWORD" "postgres").
Definition dbName (env flags : gmap string string) : string :=
  flag_String flags "db-name" (getEnvOrDefault env "DB_NAME" "go_api_template").
Definition dbSSLMode (env flags : gmap string string) : string :=
  flag_String flags "db-ssl-mode" (getEnvOrDefault env "DB_SSLMODE" "disable").

Definition dbConfig (env flags : gmap string string) : Config.t :=
  {| Config.Host := dbHost env flags;
     Config.Port := dbPort env flags;
     Config.User := dbUser env flags;
     Config.Password := dbPassword env flags;
     Config.DBName := dbName env flags;
     Config.SSLMode := dbSSLMode env flags |}.

(** ** [cmd/server/main.go]: the process

    [main] and the goroutine it starts for the termination signal are
    sequences of calls into libraries.  Each is written as a program that
    records the calls it makes, in order, and either returns or ends the
    process with [os.Exit].  What every library call answers is an input. *)

Inductive Level : Type := LevelInfo | LevelWarn | LevelError.

Inductive event : Type :=
| slog (level : Level) (msg : string)
| InitOTel
| InitOTelMetrics
| runtime_Start
| migrate_New (sourceURL databaseURL : string)
| m_Up
| m_Close
| net_Listen (network address : string)
| users_NewService
| go_grpcServer_Serve
| grpc_NewClient (target : string)
| RegisterUserServiceHandler
| signal_Notify
| go_signal_handler
| gwServer_ListenAndServe (addr : string)
| gwServer_Shutdown (timeout_seconds : Z)
| grpcServer_GracefulStop
| impl_Close
| tp_Shutdown (timeout_seconds : Z)
| mp_Shutdown (timeout_seconds : Z).

#[global] Instance Level_eq_dec : EqDecision Level.
Proof. solve_decision. Defined.

#[global] Instance event_eq_dec : EqDecision event.
Proof. solve_decision. Defined.

(** The answers of the libraries.  For the two telemetry initialisers the
    answer is an error, or whether a provider was built ([Ok false] is the
    [nil, nil] return of a process without an exporter). *)
Record Outcomes : Type := {
  InitOTel_out : result bool;
  InitOTelMetrics_out : result bool;
  runtime_Start_err : option error;
  migrate_New_err : option error;
  m_Up_err : option error;
  net_Listen_err : option error;
  users_NewService_err : option error;
  grpc_NewClient_err : option error;
  RegisterUserServiceHandler_err : option error;
  gwServer_ListenAndServe_err : option error;
  gwServer_Shutdown_err : option error;
  impl_Close_err : option error;
  tp_Shutdown_err : option error;
  mp_Shutdown_err : option error
}.

Inductive halted (A : Type) : Type :=
| Return (a : A)
| Exit (code : Z).
Arguments Return {A} a.
Arguments Exit {A} code.

Record Proc (A : Type) : Type := mkProc {
  trace : list event;
  halt : halted A
}.
Arguments mkProc {A} trace halt.
Arguments trace {A} _.
Arguments halt {A} _.

#[global] Instance Proc_ret : MRet Proc := λ A a, mkProc [] (Return a).

#[global] Instance Proc_bind : MBind Proc :=
  λ A B f m,
    match halt m with
    | Return a => mkProc (trace m ++ trace (f a)) (halt (f a))
    | Exit code => mkProc (trace m) (Exit code)
    end.

Definition emit (e : event) : Proc unit := mkProc [e] (Return tt).

Definition os_Exit {A : Type} (code : Z) : Proc A := mkProc [] (Exit code).

(** The exit status of the process when this program is its main goroutine:
    returning from [main] is status 0. *)
Definition exit_status {A : Type} (p : Proc A) : Z :=
  match halt p with
  | Return _ => 0
  | Exit code => code
  end.

Definition runMigrations (o : Outcomes) (config : Config.t)
  : Proc (option error) :=
  let dbURL :=
    "postgres://" +:+ Config.User config +:+ ":" +:+ Config.Password config
    +:+ "@" +:+ Config.Host config +:+ ":" +:+ Config.Port config
    +:+ "/" +:+ Config.DBName config
    +:+ "?sslmode=" +:+ Config.SSLMode config in
  emit (migrate_New "file://migrations" dbURL);;
  match migrate_New_err o with
  | Some err =>
      mret (Some (Errorf_w "failed to create migration instance" err))
  | None =>
      (* [defer m.Close()] runs on both returns below *)
      emit m_Up;;
      let err := m_Up_err o in
      if decide (err ≠ None ∧ err ≠ Some ErrNoChange) then
        emit m_Close;;
        mret (Errorf_w "failed to run migrations" <$> err)
      else
        emit (slog LevelInfo "Database migrations completed successfully");;
        emit m_Close;;
        mret None
  end.

(** [ShutdownOTel] and [ShutdownOTelMetrics] of [internal/otel.go]; the
    provider is [true] when the pointer is not nil. *)
Definition ShutdownOTel (o : Outcomes) (tp : bool) (timeout_seconds : Z)
  : Proc (option error) :=
  if tp then emit (tp_Shutdown timeout_seconds);; mret (tp_Shutdown_err o)
  else mret None.

Definition ShutdownOTelMetrics (o : Outcomes) (mp : bool) (timeout_seconds : Z)
  : Proc (option error) :=
  if mp then emit (mp_Shutdown timeout_seconds);; mret (mp_Shutdown_err o)
  else mret None.

(** [otelConfig.ShutdownTimeout], 30 seconds. *)
Definition ShutdownTimeout : Z := 30.

(** [if err != nil { slog.Error(msg, ...) }]. *)
Definition log_if_error (err : option error) (msg : string) : Proc unit :=
  match err with
  | Some _ => emit (slog LevelError msg)
  | None => mret tt
  end.

(** [if err != nil { slog.Error(msg, ...); os.Exit(1) }]. *)
Definition exit_if_error (err : option error) (msg : string) : Proc unit :=
  match err with
  | Some _ => emit (slog LevelError msg);; os_Exit 1
  | None => mret tt
  end.

(** The goroutine that waits on [signalChan], from the receipt of the signal
    on. *)
Definition signal_handler (o : Outcomes) (tp mp : bool) : Proc unit :=
  emit (slog LevelInfo "received signal, shutting down servers");;
  (* Shutdown HTTP server, context.WithTimeout(..., 10*time.Second) *)
  emit (gwServer_Shutdown 10);;
  log_if_error (gwServer_Shutdown_err o) "failed to shutdown HTTP server";;
  (* Shutdown gRPC server *)
  emit grpcServer_GracefulStop;;
  (* Close database connection *)
  emit impl_Close;;
  exit_if_error (impl_Close_err o) "failed to properly close users service";;
  (* Shutdown OpenTelemetry traces *)
  err ← ShutdownOTel o tp ShutdownTimeout;
  log_if_error err "failed to shutdown OpenTelemetry traces";;
  (* Shutdown OpenTelemetry metrics *)
  if mp then
    err ← ShutdownOTelMetrics o mp ShutdownTimeout;
    log_if_error err "failed to shutdown OpenTelemetry metrics"
  else mret tt.

(** [main], from [flag.Parse()] to its return.  The deferred telemetry
    shutdowns run when [main] returns, the last one registered first; they do
    not run when the process ends through [os.Exit]. *)
Definition main (o : Outcomes) (env flags : gmap string string) : Proc unit :=
  emit InitOTel;;
  match InitOTel_out o with
  | Err _ =>
      emit (slog LevelError "failed to initialize OpenTelemetry traces");;
      os_Exit 1
  | Ok tp =>
  emit InitOTelMetrics;;
  match InitOTelMetrics_out o with
  | Err _ =>
      emit (slog LevelError "failed to initialize OpenTelemetry metrics");;
      os_Exit 1
  | Ok mp =>
  (if mp then
     emit runtime_Start;;
     match runtime_Start_err o with
     | Some _ =>
         emit (slog LevelWarn "failed to start runtime metrics collection")
     | None => mret tt
     end
   else mret tt);;
  (* Run database migrations *)
  err ← runMigrations o (dbConfig env flags);
  exit_if_error err "failed to run migrations";;
  (* Create a TCP listener for the gRPC server *)
  emit (net_Listen "tcp" ":8080");;
  exit_if_error (net_Listen_err o) "failed to create (gRPC) listener";;
  emit users_NewService;;
  exit_if_error (users_NewService_err o)
    "failed to create users service instance";;
  emit go_grpcServer_Serve;;
  emit (grpc_NewClient "0.0.0.0:8080");;
  exit_if_error (grpc_NewClient_err o) "failed to create gRPC client";;
  emit RegisterUserServiceHandler;;
  exit_if_error (RegisterUserServiceHandler_err o)
    "failed to register gRPC gateway";;
  emit signal_Notify;;
  emit go_signal_handler;;
  emit (slog LevelInfo "gRPC Gateway listening");;
  emit (gwServer_ListenAndServe ":8081");;
  (let err := gwServer_ListenAndServe_err o in
   if decide (err ≠ None ∧ err ≠ Some ErrServerClosed) then
     emit (slog LevelError "HTTP server failed");; os_Exit 1
   else mret tt);;
  (if mp then
     err ← ShutdownOTelMetrics o mp ShutdownTimeout;
     log_if_error err "failed to shutdown OpenTelemetry metrics"
   else mret tt);;
  (if tp then
     err ← ShutdownOTel o tp ShutdownTimeout;
     log_if_error err "failed to shutdown OpenTelemetry traces"
   else mret tt)
  end
  end.

(** The calls among the events, without the log lines. *)
Definition is_call (e : event) : bool :=
  match e with
  | slog _ _ => false
  | _ => true
  end.

Definition calls (tr : list event) : list event := List.filter is_call tr.

(** An event that opens a listening socket. *)
Definition opens_listener (e : event) : bool :=
  match e with
  | net_Listen _ _ => true
  | gwServer_ListenAndServe _ => true
  | _ => false
  end.

(** No event of the trace opens a listening socket. *)
Definition quiet (tr : list event) : Prop :=
  Forall (λ ev, opens_listener ev = false) tr.

(** ** Sample inputs *)

Definition jdoe : option CreateUserRequest :=
  Some {| req_Email := "jdoe@example.com"; req_Name := "John Doe" |}.

Definition jdoe_row : Pg.row :=
  {| Pg.id := 1; Pg.email := "jdoe@example.com"; Pg.name := "John Doe" |}.

Definition jdoe_user (i : Z) : User :=
  {| Id := i; Email := "jdoe@example.com"; Name := "John Doe" |}.

(** A store that already holds one user. *)
Definition one_user : Pg.conn :=
  Pg.connect {| Pg.seq_users_id := 2; Pg.users := [jdoe_row] |}.

(** The rows of the test case "error - scan error" of [TestService_ListUsers],
    after a row that reads well. *)
Definition scan_error_rows : Rows :=
  {| rows_delivered :=
       [[VInt64 1; VString "john.doe@example.com"; VString "John Doe"];
        [VString "invalid"; VString "test@example.com"; VString "Test"]];
     rows_lasterr := None |}.

Definition scan_error_script : Scripted.t := [Ok scan_error_rows].

(** Library answers of a start against a schema that is already current,
    and of one whose migration fails; the shutdown answers report a failing
    trace flush. *)
Definition schema_current : Outcomes :=
  {| InitOTel_out := Ok true;
     InitOTelMetrics_out := Ok true;
     runtime_Start_err := None;
     migrate_New_err := None;
     m_Up_err := Some ErrNoChange;
     net_Listen_err := None;
     users_NewService_err := None;
     grpc_NewClient_err := None;
     RegisterUserServiceHandler_err := None;
     gwServer_ListenAndServe_err := Some ErrServerClosed;
     gwServer_Shutdown_err := None;
     impl_Close_err := None;
     tp_Shutdown_err := Some DeadlineExceeded;
     mp_Shutdown_err := None |}.

Definition migration_fails : Outcomes :=
  {| InitOTel_out := Ok true;
     InitOTelMetrics_out := Ok true;
     runtime_Start_err := None;
     migrate_New_err := None;
     m_Up_err := Some (errors_New "Dirty database version 1");
     net_Listen_err := None;
     users_NewService_err := None;
     grpc_NewClient_err := None;
     RegisterUserServiceHandler_err := None;
     gwServer_ListenAndServe_err := Some ErrServerClosed;
     gwServer_Shutdown_err := None;
     impl_Close_err := Some (errors_New "sql: connection is busy");
     tp_Shutdown_err := None;
     mp_Shutdown_err := None |}.


(** ** The process after a termination signal

    [main] starts the handler goroutine and then blocks in
    [gwServer.ListenAndServe]; nothing in [main] waits for the handler.  Two
    facts from outside this repository decide what the process does once the
    signal has arrived.  [ListenAndServe] returns [http.ErrServerClosed] as
    soon as [gwServer.Shutdown] has been called, without waiting for that
    call to return (net/http).  The process ends, with status 0, when [main]
    returns, without waiting for any other goroutine (the Go
    specification); [os.Exit] in either goroutine ends it at once.

    The two goroutines are interleaved by a schedule, which names the
    goroutine that takes each next step. *)

Inductive goroutine : Type := Main | Handler.

Record goroutines : Type := {
  main_rest : list event;      (* what main does after ListenAndServe *)
  main_end : halted unit;
  handler_rest : list event;   (* what the handler does from the signal on *)
  handler_end : halted unit;
  shutdown_called : bool       (* has gwServer.Shutdown been called *)
}.

Definition is_Shutdown (e : event) : bool :=
  match e with
  | gwServer_Shutdown _ => true
  | _ => false
  end.

Definition status_of (h : halted unit) : Z :=
  match h with
  | Return _ => 0
  | Exit code => code
  end.

(** One step of goroutine [g]: the event it records, if any, and the state
    of the two goroutines after it, or the status the process ends with.
    [main] takes no step while it is blocked in [ListenAndServe]; a handler
    that has returned takes none either. *)
Definition sched_step (g : goroutine) (st : goroutines)
  : list event * (goroutines + Z) :=
  match g with
  | Handler =>
      match handler_rest st with
      | e :: rest =>
          ([e], inl {| main_rest := main_rest st;
                       main_end := main_end st;
                       handler_rest := rest;
                       handler_end := handler_end st;
                       shutdown_called := shutdown_called st || is_Shutdown e |})
      | [] =>
          match handler_end st with
          | Exit code => ([], inr code)
          | Return _ => ([], inl st)
          end
      end
  | Main =>
      if shutdown_called st then
        match main_rest st with
        | e :: rest =>
            ([e], inl {| main_rest := rest;
                         main_end := main_end st;
                         handler_rest := handler_rest st;
                         handler_end := handler_end st;
                         shutdown_called := shutdown_called st |})
        | [] => ([], inr (status_of (main_end st)))
        end
      else ([], inl st)
  end.

(** The events of the process under a schedule, and its exit status when it
    has ended by the end of the schedule. *)
Fixpoint run_schedule (sched : list goroutine) (st : goroutines)
  : list event * option Z :=
  match sched with
  | [] => ([], None)
  | g :: sched' =>
      match sched_step g st with
      | (evs, inr code) => (evs, Some code)
      | (evs, inl st') =>
          let '(tr, status) := run_schedule sched' st' in (evs ++ tr, status)
      end
  end.

(** What [main] records after its call of [ListenAndServe]. *)
Fixpoint after_serve (tr : list event) : option (list event) :=
  match tr with
  | [] => None
  | gwServer_ListenAndServe _ :: rest => Some rest
  | _ :: rest => after_serve rest
  end.

(** The two goroutines at the receipt of the signal, for a process that has
    come to serve: the handler at its start with the providers [main] built,
    [main] blocked in [ListenAndServe], which will answer
    [http.ErrServerClosed]. *)
Definition on_signal (o : Outcomes) (env flags : gmap string string)
  : option goroutines :=
  match InitOTel_out o, InitOTelMetrics_out o,
        after_serve (trace (main o env flags)) with
  | Ok tp, Ok mp, Some rest =>
      if decide (gwServer_ListenAndServe_err o = Some ErrServerClosed) then
        Some {| main_rest := rest;
                main_end := halt (main o env flags);
                handler_rest := trace (signal_handler o tp mp);
                handler_end := halt (signal_handler o tp mp);
                shutdown_called := false |}
      else None
  | _, _, _ => None
  end.

(** Two schedules.  In the first the handler runs until it has called
    [gwServer.Shutdown] (its second step, after the log line) and then
    [main] runs to its end; in the second the handler runs to its end
    before [main] takes a step. *)
Definition main_first (st : goroutines) : list goroutine :=
  [Handler; Handler] ++ replicate (S (length (main_rest st))) Main.

Definition handler_first (st : goroutines) : list goroutine :=
  replicate (S (length (handler_rest st))) Handler
  ++ replicate (S (length (main_rest st))) Main.

(** Library answers of a process that starts well, with both telemetry
    providers, and whose store handle fails to close. *)
Definition close_fails : Outcomes :=
  {| InitOTel_out := Ok true;
     InitOTelMetrics_out := Ok true;
     runtime_Start_err := None;
     migrate_New_err := None;
     m_Up_err := None;
     net_Listen_err := None;
     users_NewService_err := None;
     grpc_NewClient_err := None;
     RegisterUserServiceHandler_err := None;
     gwServer_ListenAndServe_err := Some ErrServerClosed;
     gwServer_Shutdown_err := None;
     impl_Close_err := Some (errors_New "sql: connection is busy");
     tp_Shutdown_err := None;
     mp_Shutdown_err := None |}.

(** ** The users the service created, and a handle that counts *)

(** The user a successful [CreateUser] returned. *)
Definition created_user (out : option CreateUserResponse * option error)
  : option User :=
  match out with
  | (Some {| User_ := Some u |}, None) => Some u
  | _ => None
  end.

Definition created_users (rs : list reply) : list User :=
  omap (λ r, match r with
             | CreateUserReply out => created_user out
             | _ => None
             end) rs.

(** A handle that counts the statements sent through it, whatever the handle
    below answers. *)
Module Counted.
Record t (DB : Type) : Type := mk { inner : DB; statements : nat }.
Arguments mk {DB} inner statements.
Arguments inner {DB} _.
Arguments statements {DB} _.

#[global] Instance queryer {DB : Type} `{!Queryer DB} : Queryer (t DB) :=
  λ c ctx query args,
    let '(db', r) := QueryContext (inner c) ctx query args in
    (mk db' (S (statements c)), r).
End Counted.

(** ** Opening the store: [NewService], [NewDatabase], [NewUsersServer] *)

(** [errors.Unwrap] and [errors.Is] on the errors of this development. *)
Definition Unwrap (e : error) : option error :=
  match e with
  | Errorf_w _ cause => Some cause
  | _ => None
  end.

Fixpoint errors_Is (e target : error) : bool :=
  bool_decide (e = target)
  || match e with
     | Errorf_w _ cause => errors_Is cause target
     | _ => false
     end.

(** [fmt.Sprintf("host=%s port=%s user=%s password=%s dbname=%s sslmode=%s",
    ...)]. *)
Definition connStr (config : Config.t) : string :=
  "host=" +:+ Config.Host config +:+ " port=" +:+ Config.Port config
  +:+ " user=" +:+ Config.User config
  +:+ " password=" +:+ Config.Password config
  +:+ " dbname=" +:+ Config.DBName config
  +:+ " sslmode=" +:+ Config.SSLMode config.

(** [fmt.Sprintf("postgres://%s:%s@%s:%s/%s?sslmode=%s", ...)] of
    [runMigrations]. *)
Definition dbURL (config : Config.t) : string :=
  "postgres://" +:+ Config.User config +:+ ":" +:+ Config.Password config
  +:+ "@" +:+ Config.Host config +:+ ":" +:+ Config.Port config
  +:+ "/" +:+ Config.DBName config
  +:+ "?sslmode=" +:+ Config.SSLMode config.

Section Opening.
(** What [otelsql.Open("postgres", connStr, ...)] and [db.Ping()] answer. *)
Context {DB : Type}.
Variable otelsql_Open : string → string → result DB.
Variable Ping : DB → option error.

(** [users.NewService]; [internal.DatabaseConfig] has the fields of
    [users.Config], and [NewDatabase] the body of [NewService]. *)
Definition NewService (config : Config.t)
  : option (Service.t DB) * option error :=
  match otelsql_Open "postgres" (connStr config) with
  | Err err => (None, Some err)
  | Ok db =>
      match Ping db with
      | Some err => (None, Some (Errorf_w "failed to ping database" err))
      | None => (Some (Service.mk db), None)
      end
  end.

Definition NewDatabase (config : Config.t)
  : option (Database.t DB) * option error :=
  match otelsql_Open "postgres" (connStr config) with
  | Err err => (None, Some err)
  | Ok db =>
      match Ping db with
      | Some err => (None, Some (Errorf_w "failed to ping database" err))
      | None => (Some (Database.mk db), None)
      end
  end.

Definition NewUsersServer (config : Config.t)
  : option (UsersServer.t DB) * option error :=
  match NewDatabase config with
  | (_, Some err) => (None, Some err)
  | (Some db, None) => (Some (UsersServer.mk db), None)
  | (None, None) => (None, None)
  end.
End Opening.

(** ** [cmd/server/main.go]: what decides the exit status *)

(** [err != nil], and [err != nil && err != sentinel]. *)
Definition failed (err : option error) : bool :=
  match err with Some _ => true | None => false end.

Definition failed_unless (sentinel : error) (err : option error) : bool :=
  match err with
  | Some e => if decide (e = sentinel) then false else true
  | None => false
  end.

Definition is_Err {A : Type} (r : result A) : bool :=
  match r with Err _ => true | Ok _ => false end.

(** The steps of [main] whose failure ends the process. *)
Definition fatal (o : Outcomes) : bool :=
  is_Err (InitOTel_out o)
  || is_Err (InitOTelMetrics_out o)
  || failed (migrate_New_err o)
  || failed_unless ErrNoChange (m_Up_err o)
  || failed (net_Listen_err o)
  || failed (users_NewService_err o)
  || failed (grpc_NewClient_err o)
  || failed (RegisterUserServiceHandler_err o)
  || failed_unless ErrServerClosed (gwServer_ListenAndServe_err o).

Definition is_telemetry_shutdown (e : event) : bool :=
  match e with
  | tp_Shutdown _ => true
  | mp_Shutdown _ => true
  | _ => false
  end.

(** The calls of a start in which every step succeeds, up to the return of
    [main], for the providers [tp] and [mp] that telemetry set up. *)
Definition full_start (config : Config.t) (tp mp : bool) : list event :=
  [InitOTel; InitOTelMetrics]
  ++ (if mp then [runtime_Start] else [])
  ++ [migrate_New "file://migrations" (dbURL config); m_Up; m_Close;
      net_Listen "tcp" ":8080"; users_NewService; go_grpcServer_Serve;
      grpc_NewClient "0.0.0.0:8080"; RegisterUserServiceHandler;
      signal_Notify; go_signal_handler; gwServer_ListenAndServe ":8081"]
  ++ (if mp then [mp_Shutdown 30] else [])
  ++ (if tp then [tp_Shutdown 30] else []).

(** The calls [main] makes, step by step: each step is reached only when
    the steps before it did not end the process. *)
Definition calls_of_main (o : Outcomes) (config : Config.t) : list event :=
  InitOTel ::
  match InitOTel_out o with
  | Err _ => []
  | Ok tp =>
  InitOTelMetrics ::
  match InitOTelMetrics_out o with
  | Err _ => []
  | Ok mp =>
  (if mp then [runtime_Start] else [])
  ++ migrate_New "file://migrations" (dbURL config) ::
  (if failed (migrate_New_err o) then [] else
   m_Up :: m_Close ::
   (if failed_unless ErrNoChange (m_Up_err o) then [] else
    net_Listen "tcp" ":8080" ::
    (if failed (net_Listen_err o) then [] else
     users_NewService ::
     (if failed (users_NewService_err o) then [] else
      go_grpcServer_Serve :: grpc_NewClient "0.0.0.0:8080" ::
      (if failed (grpc_NewClient_err o) then [] else
       RegisterUserServiceHandler ::
       (if failed (RegisterUserServiceHandler_err o) then [] else
        signal_Notify :: go_signal_handler ::
        gwServer_ListenAndServe ":8081" ::
        (if failed_unless ErrServerClosed (gwServer_ListenAndServe_err o)
         then []
         else (if mp then [mp_Shutdown 30] else [])
              ++ (if tp then [tp_Shutdown 30] else []))))))))
  end
  end.


(** ** [cmd/server/main.go]: the telemetry configuration *)

Module OTelConfig.
Record t : Type := mk {
  ServiceName : string;
  WorkspaceURL : string;
  Token : string;
  UCTableName : string;
  UCMetricsTableName : string;
  ShutdownTimeout : Z
}.
End OTelConfig.

(** [otelConfig] as [main] builds it from the flags, each with its
    environment variable as default; the timeout is in seconds. *)
Definition otelConfig (env flags : gmap string string) : OTelConfig.t :=
  {| OTelConfig.ServiceName :=
       flag_String flags "otel-service-name"
         (getEnvOrDefault env "OTEL_SERVICE_NAME" "go-api-template");
     OTelConfig.WorkspaceURL :=
       flag_String flags "databricks-workspace-url"
         (getEnvOrDefault env "DATABRICKS_WORKSPACE_URL" "");
     OTelConfig.Token :=
       flag_String flags "databricks-token"
         (getEnvOrDefault env "DATABRICKS_TOKEN" "");
     OTelConfig.UCTableName :=
       flag_String flags "databricks-uc-table-name"
         (getEnvOrDefault env "DATABRICKS_UC_TABLE_NAME" "");
     OTelConfig.UCMetricsTableName :=
       flag_String flags "databricks-uc-metrics-table-name"
         (getEnvOrDefault env "DATABRICKS_UC_METRICS_TABLE_NAME" "");
     OTelConfig.ShutdownTimeout := 30 |}.

(** ** [internal/otel.go] *)

(** [strings.HasPrefix], [TrimPrefix], [HasSuffix], [TrimSuffix] and [Join],
    as the Go library defines them on the bytes of a string. *)
Definition strings_HasPrefix (s prefix : string) : bool :=
  bool_decide (String.length prefix ≤ String.length s)%nat
  && bool_decide (substring 0 (String.length prefix) s = prefix).

Definition strings_TrimPrefix (s prefix : string) : string :=
  if strings_HasPrefix s prefix
  then substring (String.length prefix)
         (String.length s - String.length prefix) s
  else s.

Definition strings_HasSuffix (s suffix : string) : bool :=
  bool_decide (String.length suffix ≤ String.length s)%nat
  && bool_decide
       (substring (String.length s - String.length suffix)
          (String.length suffix) s = suffix).

Definition strings_TrimSuffix (s suffix : string) : string :=
  if strings_HasSuffix s suffix
  then substring 0 (String.length s - String.length suffix) s
  else s.

Fixpoint strings_Join (elems : list string) (sep : string) : string :=
  match elems with
  | [] => ""
  | [e] => e
  | e :: rest => e +:+ sep +:+ strings_Join rest sep
  end.

(** [getVersion]. *)
Definition getVersion (env : gmap string string) : string :=
  let version := Getenv env "SERVICE_VERSION" in
  if decide (version ≠ "") then version else "unknown".

Module OTel.
(** What the libraries answer: [strings.TrimSpace], the rendering of
    [url.URL{Scheme, Host, Path}] by [String()], the creation of the two
    exporters for an endpoint and headers, and [resource.New] for a service
    name and version. *)
Record Library : Type := {
  strings_TrimSpace : string → string;
  URL_String : string → string → string → string;
  otlptracehttp_New : string → gmap string string → option error;
  otlpmetrichttp_New : string → gmap string string → option error;
  resource_New : string → string → option error
}.

(** What an initialiser does, in order. *)
Inductive step : Type :=
| slog_Warn (msg missing_vars : string)
| new_trace_exporter (endpoint : string) (headers : gmap string string)
| new_metric_exporter (endpoint : string) (headers : gmap string string)
| new_resource (serviceName serviceVersion : string)
| SetTracerProvider (noop : bool)
| SetTextMapPropagator
| SetMeterProvider (noop : bool).

#[global] Instance step_eq_dec : EqDecision step.
Proof. solve_decision. Defined.

(** What an initialiser returns: whether the provider pointer is set, and the
    error. *)
Record answer : Type := {
  steps : list step;
  provider : bool;
  err : option error
}.

(** The workspace URL as both initialisers normalise it. *)
Definition workspaceURL_of (lib : Library) (WorkspaceURL : string) : string :=
  let workspaceURL := strings_TrimSpace lib WorkspaceURL in
  let workspaceURL :=
    if strings_HasPrefix workspaceURL "https://" then
      strings_TrimPrefix workspaceURL "https://"
    else if strings_HasPrefix workspaceURL "http://" then
      strings_TrimPrefix workspaceURL "http://"
    else workspaceURL in
  strings_TrimSuffix workspaceURL "/".

Definition missing_trace_vars (config : OTelConfig.t) : list string :=
  (if decide (OTelConfig.WorkspaceURL config = "")
   then ["DATABRICKS_WORKSPACE_URL"] else [])
  ++ (if decide (OTelConfig.Token config = "")
      then ["DATABRICKS_TOKEN"] else [])
  ++ (if decide (OTelConfig.UCTableName config = "")
      then ["DATABRICKS_UC_TABLE_NAME"] else []).

Definition missing_metric_vars (config : OTelConfig.t) : list string :=
  (if decide (OTelConfig.WorkspaceURL config = "")
   then ["DATABRICKS_WORKSPACE_URL"] else [])
  ++ (if decide (OTelConfig.Token config = "")
      then ["DATABRICKS_TOKEN"] else [])
  ++ (if decide (OTelConfig.UCMetricsTableName config = "")
      then ["DATABRICKS_UC_METRICS_TABLE_NAME"] else []).

Definition default_ServiceName (config : OTelConfig.t) : string :=
  if decide (OTelConfig.ServiceName config = "") then "go-api-template"
  else OTelConfig.ServiceName config.

Definition InitOTel (lib : Library) (env : gmap string string)
    (config : OTelConfig.t) : answer :=
  let ServiceName := default_ServiceName config in
  if decide (OTelConfig.WorkspaceURL config = ""
             ∨ OTelConfig.Token config = ""
             ∨ OTelConfig.UCTableName config = "") then
    {| steps :=
         [slog_Warn "OpenTelemetry Databricks exporter not configured"
            (strings_Join (missing_trace_vars config) ", ");
          SetTracerProvider true;
          SetTextMapPropagator];
       provider := false;
       err := None |}
  else
    let workspaceURL := workspaceURL_of lib (OTelConfig.WorkspaceURL config) in
    let endpoint :=
      URL_String lib "https" workspaceURL "/api/2.0/otel/v1/traces" in
    let headers : gmap string string :=
      {[ "content-type" := "application/x-protobuf";
         "X-Databricks-UC-Table-Name" := OTelConfig.UCTableName config;
         "Authorization" := "Bearer " +:+ OTelConfig.Token config ]} in
    match otlptracehttp_New lib endpoint headers with
    | Some e =>
        {| steps := [new_trace_exporter endpoint headers];
           provider := false;
           err := Some (Errorf_w "failed to create OTLP exporter" e) |}
    | None =>
        match resource_New lib ServiceName (getVersion env) with
        | Some e =>
            {| steps := [new_trace_exporter endpoint headers;
                         new_resource ServiceName (getVersion env)];
               provider := false;
               err := Some (Errorf_w "failed to create resource" e) |}
        | None =>
            {| steps := [new_trace_exporter endpoint headers;
                         new_resource ServiceName (getVersion env);
                         SetTracerProvider false;
                         SetTextMapPropagator];
               provider := true;
               err := None |}
        end
    end.

Definition InitOTelMetrics (lib : Library) (env : gmap string string)
    (config : OTelConfig.t) : answer :=
  let ServiceName := default_ServiceName config in
  if decide (OTelConfig.WorkspaceURL config = ""
             ∨ OTelConfig.Token config = ""
             ∨ OTelConfig.UCMetricsTableName config = "") then
    {| steps :=
         [slog_Warn "OpenTelemetry Databricks metrics exporter not configured"
            (strings_Join (missing_metric_vars config) ", ");
          SetMeterProvider true];
       provider := false;
       err := None |}
  else
    let workspaceURL := workspaceURL_of lib (OTelConfig.WorkspaceURL config) in
    let endpoint :=
      URL_String lib "https" workspaceURL "/api/2.0/otel/v1/metrics" in
    let headers : gmap string string :=
      {[ "content-type" := "application/x-protobuf";
         "X-Databricks-UC-Table-Name" := OTelConfig.UCMetricsTableName config;
         "Authorization" := "Bearer " +:+ OTelConfig.Token config ]} in
    match otlpmetrichttp_New lib endpoint headers with
    | Some e =>
        {| steps := [new_metric_exporter endpoint headers];
           provider := false;
           err := Some (Errorf_w "failed to create OTLP metrics exporter" e) |}
    | None =>
        match resource_New lib ServiceName (getVersion env) with
        | Some e =>
            {| steps := [new_metric_exporter endpoint headers;
                         new_resource ServiceName (getVersion env)];
               provider := false;
               err := Some (Errorf_w "failed to create resource" e) |}
        | None =>
            {| steps := [new_metric_exporter endpoint headers;
                         new_resource ServiceName (getVersion env);
                         SetMeterProvider false];
               provider := true;
               err := None |}
        end
    end.

(** How [main] reads the return of an initialiser. *)
Definition to_result (a : answer) : result bool :=
  match err a with
  | Some e => Err e
  | None => Ok (provider a)
  end.

Definition installs_provider (s : step) : bool :=
  match s with
  | SetTracerProvider _ => true
  | SetMeterProvider _ => true
  | _ => false
  end.

Definition creates_exporter (s : step) : bool :=
  match s with
  | new_trace_exporter _ _ => true
  | new_metric_exporter _ _ => true
  | _ => false
  end.
End OTel.

(** The calls of [main] and of the signal handler that need a telemetry
    provider. *)
Definition needs_provider (e : event) : bool :=
  match e with
  | runtime_Start => true
  | tp_Shutdown _ => true
  | mp_Shutdown _ => true
  | _ => false
  end.

(** A library for sample inputs: spaces are trimmed, the URL is rendered
    without escaping, and every creation succeeds. *)
Definition trim_left_blanks : string → string :=
  fix go (s : string) : string :=
    match s with
    | String c rest =>
        if Ascii.eqb c " "%char then go rest else s
    | EmptyString => s
    end.

Definition sample_library : OTel.Library :=
  {| OTel.strings_TrimSpace := λ s,
       String.rev (trim_left_blanks (String.rev (trim_left_blanks s)));
     OTel.URL_String := λ scheme host path, scheme +:+ "://" +:+ host +:+ path;
     OTel.otlptracehttp_New := λ _ _, None;
     OTel.otlpmetrichttp_New := λ _ _, None;
     OTel.resource_New := λ _ _, None |}.

(** ** The log handler that adds the trace context *)

(** [slog.Attr] with a string value, [slog.Record], and what the handler
    asks of the span that [trace.SpanFromContext] finds in the context. *)
Record Attr : Type := slog_String { attr_Key : string; attr_Value : string }.

Record LogRecord : Type := {
  rec_Time : Z;
  rec_Level : Level;
  rec_Message : string;
  rec_Attrs : list Attr
}.

Definition AddAttrs (record : LogRecord) (attrs : list Attr) : LogRecord :=
  {| rec_Time := rec_Time record;
     rec_Level := rec_Level record;
     rec_Message := rec_Message record;
     rec_Attrs := rec_Attrs record ++ attrs |}.

Record Span : Type := {
  span_IsRecording : bool;
  span_IsValid : bool;
  span_TraceID : string;
  span_SpanID : string
}.

(** [slog.Handler]; [R] is what handling a record amounts to (the error it
    returns and what it writes). *)
Class slog_Handler (H R : Type) : Type := {
  h_Enabled : H → Span → Level → bool;
  h_Handle : H → Span → LogRecord → R;
  h_WithAttrs : H → list Attr → H;
  h_WithGroup : H → string → H
}.

Module TraceContextHandler.
Record t (H : Type) : Type := mk { handler : H }.
Arguments mk {H} handler.
Arguments handler {H} _.

Section Methods.
Context {H R : Type} `{!slog_Handler H R}.

Definition NewTraceContextHandler (handler : H) : t H := mk handler.

Definition Enabled (h : t H) (ctx : Span) (level : Level) : bool :=
  h_Enabled (handler h) ctx level.

Definition Handle (h : t H) (ctx : Span) (record : LogRecord) : R :=
  let span := ctx in
  let record :=
    if span_IsRecording span then
      if span_IsValid span then
        AddAttrs record
          [slog_String "trace_id" (span_TraceID span);
           slog_String "span_id" (span_SpanID span)]
      else record
    else record in
  h_Handle (handler h) ctx record.

Definition WithAttrs (h : t H) (attrs : list Attr) : t H :=
  mk (h_WithAttrs (handler h) attrs).

Definition WithGroup (h : t H) (name : string) : t H :=
  mk (h_WithGroup (handler h) name).

#[global] Instance is_Handler : slog_Handler (t H) R :=
  {| h_Enabled := Enabled;
     h_Handle := Handle;
     h_WithAttrs := WithAttrs;
     h_WithGroup := WithGroup |}.
End Methods.
End TraceContextHandler.

(** Handlers derived from a handler by [WithAttrs] and [WithGroup]. *)
Inductive derivation : Type :=
| by_WithAttrs (attrs : list Attr)
| by_WithGroup (name : string).

Definition derive {H R : Type} `{!slog_Handler H R}
    (h : H) (ds : list derivation) : H :=
  foldl (λ h d, match d with
                | by_WithAttrs attrs => h_WithAttrs h attrs
                | by_WithGroup name => h_WithGroup h name
                end) h ds.

(** ** More sample inputs *)

(** A start without telemetry providers, every step succeeding. *)
Definition without_telemetry : Outcomes :=
  {| InitOTel_out := Ok false;
     InitOTelMetrics_out := Ok false;
     runtime_Start_err := None;
     migrate_New_err := None;
     m_Up_err := None;
     net_Listen_err := None;
     users_NewService_err := None;
     grpc_NewClient_err := None;
     RegisterUserServiceHandler_err := None;
     gwServer_ListenAndServe_err := Some ErrServerClosed;
     gwServer_Shutdown_err := None;
     impl_Close_err := None;
     tp_Shutdown_err := None;
     mp_Shutdown_err := None |}.

Definition databricks_config : OTelConfig.t :=
  {| OTelConfig.ServiceName := "";
     OTelConfig.WorkspaceURL := " https://dbc-1.cloud.databricks.com/ ";
     OTelConfig.Token := "dapi123";
     OTelConfig.UCTableName := "main.default.otel_spans";
     OTelConfig.UCMetricsTableName := "";
     OTelConfig.ShutdownTimeout := 30 |}.

(** A store whose sequence has passed the INTEGER range. *)
Definition exhausted_store : Service.t Pg.conn :=
  Service.mk (Pg.connect {| Pg.seq_users_id := 2 ^ 31; Pg.users := [jdoe_row] |}).

(** The answer of a query whose iteration ended with an error after one
    row. *)
Definition cut_short_rows : Rows :=
  {| rows_delivered :=
       [[VInt64 1; VString "john.doe@example.com"; VString "John Doe"]];
     rows_lasterr := Some (errors_New "driver: bad connection") |}.

(** * Properties *)

(** ** Scanning rows *)

Lemma scan_loop_all_ok (pending : list (list Value)) (us acc : list User) :
  Forall2 (λ cols u, Scan_User cols = Ok u) pending us →
  scan_loop pending acc = (Some {| Users := acc ++ us |}, None).
Proof.
  intros H. revert acc.
  induction H as [|cols u pending us Hu _ IH]; intros acc; simpl.
  - by rewrite app_nil_r.
  - rewrite Hu, IH. by rewrite <- app_assoc.
Qed.

Lemma scan_loop_first_failure (pending : list (list Value)) (acc : list User) :
  Exists (λ cols, ∃ e, Scan_User cols = Err e) pending →
  ∃ err, scan_loop pending acc = (None, Some err)
         ∧ Exists (λ cols, Scan_User cols = Err err) pending.
Proof.
  revert acc. induction pending as [|cols rest IH]; intros acc Hex.
  - inversion Hex.
  - simpl. destruct (Scan_User cols) as [u|e] eqn:Hscan.
    + apply Exists_cons in Hex as [[e He]|Hex]; [congruence|].
      destruct (IH (acc ++ [u]) Hex) as (err & Hloop & Hin).
      exists err. split; [done|]. by apply Exists_cons_tl.
    + exists e. split; [done|]. by apply Exists_cons_hd.
Qed.

Lemma scan_loop_never_partial (pending : list (list Value)) (acc : list User) :
  ∀ resp err, scan_loop pending acc = (resp, err) →
    (resp = None ∧ is_Some err) ∨ (is_Some resp ∧ err = None).
Proof.
  revert acc. induction pending as [|cols rest IH]; intros acc resp err; simpl.
  - intros [= <- <-]. right. eauto.
  - destruct (Scan_User cols) as [u|e].
    + apply IH.
    + intros [= <- <-]. left. eauto.
Qed.

Lemma Scan_User_non_numeric_id (s : string) (c1 c2 : Value) :
  (∀ n, ParseInt s 64 ≠ Ok n) →
  ∃ e, Scan_User [VString s; c1; c2] = Err e.
Proof.
  intros Hs. unfold Scan_User, scan_col; simpl.
  destruct (ParseInt s 64) as [n|e] eqn:Hp; [by destruct (Hs n)|].
  eauto.
Qed.

(** ** The two implementations of the handlers agree *)

Section Handlers.
Context {DB : Type} `{!Queryer DB}.

Lemma Service_ListUsers_Database (db : DB) (ctx : Context)
    (req : ListUsersRequest) :
  Service.ListUsers (Service.mk db) ctx req =
  (Service.mk (Database.db (Database.GetUsers (Database.mk db) ctx).1),
   (Database.GetUsers (Database.mk db) ctx).2).
Proof.
  unfold Service.ListUsers, Database.GetUsers; simpl.
  destruct (QueryContext db ctx select_users_sql []) as [db' [rows|e]]; done.
Qed.

Lemma Service_CreateUser_Database (db : DB) (ctx : Context)
    (req : option CreateUserRequest) :
  Service.CreateUser (Service.mk db) ctx req =
  (Service.mk (Database.db (Database.CreateUser (Database.mk db) ctx req).1),
   (Database.CreateUser (Database.mk db) ctx req).2).
Proof.
  unfold Service.CreateUser, Database.CreateUser; simpl.
  destruct (QueryRowContext db ctx insert_user_sql _) as [db' row].
  destruct (Row_Err row); [done|].
  destruct (Row_Scan row Scan_userID); done.
Qed.

(** What a successful [CreateUser] tells about the reply of the handle. *)
Lemma CreateUser_ok_inv (s s' : Service.t DB) (ctx : Context)
    (req : option CreateUserRequest) (resp : option CreateUserResponse) :
  Service.CreateUser s ctx req = (s', (resp, None)) →
  ∃ rows cols v,
    QueryContext (Service.db s) ctx insert_user_sql
      [VString (GetEmail req); VString (GetName req)]
    = (Service.db s', Ok rows)
    ∧ head (rows_delivered rows) = Some cols
    ∧ Scan_userID cols = Ok v
    ∧ resp = Some {| User_ := Some {| Id := v; Email := GetEmail req;
                                     Name := GetName req |} |}.
Proof.
  unfold Service.CreateUser, QueryRowContext, Row_Err, Row_Scan.
  destruct (QueryContext _ _ _ _) as [db' [rows|e]]; simpl; [|by intros [=]].
  destruct (rows_delivered rows) as [|cols rest] eqn:Hd.
  - destruct (rows_lasterr rows); intros [=].
  - destruct (Scan_userID cols) as [v|e] eqn:Hs; intros [= <- <-].
    exists rows, cols, v. by rewrite Hd.
Qed.
End Handlers.

(** ** The PostgreSQL model *)

Lemma Pg_exec_select (s : Pg.server) :
  Pg.exec s select_users_sql [] =
  (s, Ok {| rows_delivered := Pg.select_users s; rows_lasterr := None |}).
Proof. unfold Pg.exec. by rewrite decide_True. Qed.

Lemma Pg_exec_insert (s : Pg.server) (e n : string) :
  Pg.exec s insert_user_sql [VString e; VString n] =
  ((Pg.insert_user s e n).1,
   match (Pg.insert_user s e n).2 with
   | Ok rs => Ok {| rows_delivered := rs; rows_lasterr := None |}
   | Err err => Err err
   end).
Proof.
  unfold Pg.exec. rewrite decide_False by discriminate.
  rewrite decide_True by done. by destruct (Pg.insert_user s e n).
Qed.

Lemma Pg_select_scans (s : Pg.server) :
  Forall2 (λ cols u, Scan_User cols = Ok u)
    (Pg.select_users s) (Pg.to_User <$> Pg.users s).
Proof.
  unfold Pg.select_users. induction (Pg.users s) as [|r rs IH]; simpl.
  - constructor.
  - constructor; [done|apply IH].
Qed.

(** Reading the table succeeds whenever the context is live and the link is
    up, and it lists every stored row. *)
Lemma Pg_ListUsers_ok (c : Pg.conn) (ctx : Context) (req : ListUsersRequest) :
  ctx_Err ctx = None → Pg.link c = None →
  Service.ListUsers (Service.mk c) ctx req =
  (Service.mk c, (Some {| Users := Pg.to_User <$> Pg.users (Pg.srv c) |}, None)).
Proof.
  intros Hctx Hlink.
  unfold Service.ListUsers, QueryContext, Pg.queryer; cbn -[Pg.exec].
  rewrite Hctx, Hlink, Pg_exec_select; simpl.
  rewrite (scan_loop_all_ok _ _ [] (Pg_select_scans (Pg.srv c))).
  destruct c as [srv link]; simpl in *. by subst.
Qed.

(** The insert either leaves the table as it was and answers with an error,
    or appends one row whose id is the value the sequence handed out. *)
Lemma Pg_insert_user_cases (s : Pg.server) (e n : string) :
  let v := Pg.seq_users_id s in
  (∃ err, (Pg.insert_user s e n).2 = Err err
          ∧ Pg.users (Pg.insert_user s e n).1 = Pg.users s
          ∧ (Pg.seq_users_id (Pg.insert_user s e n).1 = v
             ∨ Pg.seq_users_id (Pg.insert_user s e n).1 = (v + 1)%Z
               ∧ ((Pg.int4_max < v)%Z ∨ v ∈ Pg.ids s)))
  ∨ (Pg.insert_user s e n =
       ({| Pg.seq_users_id := (v + 1)%Z;
           Pg.users := Pg.users s ++ [{| Pg.id := v; Pg.email := e; Pg.name := n |}] |},
        Ok [[VInt64 v]])
     ∧ Pg.valid_text e = true ∧ Pg.valid_text n = true
     ∧ (v ≤ Pg.int4_max)%Z ∧ v ∉ Pg.ids s).
Proof.
  intros v. unfold Pg.insert_user. fold v.
  destruct (Pg.valid_text e) eqn:He, (Pg.valid_text n) eqn:Hn; simpl;
    try (left; eauto 10; fail).
  case_bool_decide as Hmax; simpl; [left; eauto 10|].
  case_bool_decide as H32; simpl; [left; eauto 10|].
  case_bool_decide as Hpk; simpl; [left; eauto 10|].
  right. repeat split; [lia|done].
Qed.

Lemma Pg_insert_user_ok (s : Pg.server) (e n : string) :
  Pg.valid_text e = true → Pg.valid_text n = true →
  (Pg.seq_users_id s ≤ Pg.int4_max)%Z → Pg.seq_users_id s ∉ Pg.ids s →
  Pg.insert_user s e n =
  ({| Pg.seq_users_id := (Pg.seq_users_id s + 1)%Z;
      Pg.users := Pg.users s
        ++ [{| Pg.id := Pg.seq_users_id s; Pg.email := e; Pg.name := n |}] |},
   Ok [[VInt64 (Pg.seq_users_id s)]]).
Proof.
  intros He Hn H32 Hpk. unfold Pg.insert_user. rewrite He, Hn; simpl.
  rewrite bool_decide_false by (unfold Pg.seq_max, Pg.int4_max in *; lia).
  rewrite bool_decide_false by lia.
  by rewrite bool_decide_false.
Qed.

(** What [CreateUser] does on the model, in full. *)
Lemma Pg_CreateUser_eq (c : Pg.conn) (ctx : Context)
    (req : option CreateUserRequest) :
  ctx_Err ctx = None → Pg.link c = None →
  Service.CreateUser (Service.mk c) ctx req =
  (Service.mk {| Pg.srv := (Pg.insert_user (Pg.srv c) (GetEmail req) (GetName req)).1;
                 Pg.link := None |},
   match (Pg.insert_user (Pg.srv c) (GetEmail req) (GetName req)).2 with
   | Ok (cols :: _) =>
       match Scan_userID cols with
       | Ok v => (Some {| User_ := Some {| Id := v; Email := GetEmail req;
                                           Name := GetName req |} |}, None)
       | Err err => (None, Some err)
       end
   | Ok [] => (None, Some ErrNoRows)
   | Err err => (None, Some err)
   end).
Proof.
  intros Hctx Hlink.
  unfold Service.CreateUser, QueryRowContext, QueryContext, Pg.queryer;
    cbn -[Pg.exec].
  rewrite Hctx, Hlink, Pg_exec_insert; simpl.
  destruct (Pg.insert_user _ _ _) as [s' [[|cols rest]|err]]; simpl; try done.
  unfold Row_Scan; simpl. by destruct (Scan_userID cols).
Qed.

Lemma Pg_CreateUser_refused (c : Pg.conn) (ctx : Context)
    (req : option CreateUserRequest) :
  ctx_Err ctx ≠ None ∨ Pg.link c ≠ None →
  ∃ err, Service.CreateUser (Service.mk c) ctx req
         = (Service.mk c, (None, Some err)).
Proof.
  unfold Service.CreateUser, QueryRowContext, QueryContext, Pg.queryer; simpl.
  destruct (ctx_Err ctx) as [e1|]; simpl; [eauto|].
  destruct (Pg.link c) as [e2|]; simpl; [eauto|].
  intros [[]|[]]; done.
Qed.

Lemma Pg_CreateUser_ok (c : Pg.conn) (ctx : Context)
    (req : option CreateUserRequest) :
  ctx_Err ctx = None → Pg.link c = None →
  Pg.valid_text (GetEmail req) = true → Pg.valid_text (GetName req) = true →
  (Pg.seq_users_id (Pg.srv c) ≤ Pg.int4_max)%Z →
  Pg.seq_users_id (Pg.srv c) ∉ Pg.ids (Pg.srv c) →
  Service.CreateUser (Service.mk c) ctx req =
  (Service.mk
     {| Pg.srv :=
          {| Pg.seq_users_id := (Pg.seq_users_id (Pg.srv c) + 1)%Z;
             Pg.users := Pg.users (Pg.srv c)
               ++ [{| Pg.id := Pg.seq_users_id (Pg.srv c);
                      Pg.email := GetEmail req; Pg.name := GetName req |}] |};
        Pg.link := None |},
   (Some {| User_ := Some {| Id := Pg.seq_users_id (Pg.srv c);
                             Email := GetEmail req; Name := GetName req |} |},
    None)).
Proof.
  intros Hctx Hlink He Hn H32 Hpk.
  rewrite Pg_CreateUser_eq by done.
  by rewrite Pg_insert_user_ok.
Qed.

Lemma Pg_ahead_fresh_id (s : Pg.server) :
  Pg.ahead s → Pg.seq_users_id s ∉ Pg.ids s.
Proof.
  intros [_ Hall] Hin. rewrite Forall_forall in Hall.
  apply Hall in Hin. lia.
Qed.

Lemma Pg_dense_migrated : Pg.dense Pg.migrated.
Proof. unfold Pg.dense, Pg.int4_max; simpl. repeat split; [lia|by left]. Qed.

Lemma Pg_dense_ahead (s : Pg.server) : Pg.dense s → Pg.ahead s.
Proof.
  intros (Hids & Hk & Hseq). split; [lia|].
  rewrite Hids. apply Forall_seqZ. lia.
Qed.

(** ** Runs *)

Lemma step_spec (s : Service.t Pg.conn) (o : op) :
  Pg.dense (Pg.srv (Service.db s)) →
  Pg.dense (Pg.srv (Service.db (step s o).1))
  ∧ ∃ new, table_of (step s o).1 = table_of s ++ new
           ∧ Pg.id <$> new = assigned_ids [(step s o).2].
Proof.
  intros Hd. destruct s as [c]. destruct o as [ctx req|ctx req|st]; simpl.
  - (* CreateUser *)
    destruct (ctx_Err ctx) as [e1|] eqn:Hctx.
    { destruct (Pg_CreateUser_refused c ctx req) as [err ->];
        [left; congruence|]. simpl. split; [done|].
      exists []. by rewrite app_nil_r. }
    destruct (Pg.link c) as [e2|] eqn:Hlink.
    { destruct (Pg_CreateUser_refused c ctx req) as [err ->];
        [right; congruence|]. simpl. split; [done|].
      exists []. by rewrite app_nil_r. }
    rewrite Pg_CreateUser_eq by done. unfold table_of; simpl in *.
    destruct Hd as (Hids & Hk & Hseq).
    destruct (Pg_insert_user_cases (Pg.srv c) (GetEmail req) (GetName req))
      as [(err & Hr & Hus & Hs)|(Hins & _ & _ & H32 & Hpk)].
    + rewrite Hr; simpl. split.
      * unfold Pg.dense, Pg.ids. rewrite Hus. fold (Pg.ids (Pg.srv c)).
        split; [done|]. split; [done|].
        destruct Hs as [->|[-> [Hbig|Hin]]]; [done|lia|].
        rewrite Hids in Hin. apply elem_of_seqZ in Hin. lia.
      * exists []. by rewrite Hus, app_nil_r.
    + rewrite Hins; simpl. split.
      * unfold Pg.dense, Pg.ids; simpl.
        rewrite fmap_app, length_app; simpl. fold (Pg.ids (Pg.srv c)).
        rewrite Hids.
        assert (Pg.seq_users_id (Pg.srv c)
                = Z.of_nat (length (Pg.users (Pg.srv c))) + 1)%Z as Hv by lia.
        rewrite Hv. split.
        { rewrite Nat2Z.inj_add; simpl.
          rewrite seqZ_app by lia. f_equal. rewrite Z.add_comm.
          by rewrite seqZ_cons, seqZ_nil by lia. }
        split; [lia|left; lia].
      * eexists; split; [done|done].
  - (* ListUsers *)
    assert ((Service.ListUsers (Service.mk c) ctx req).1 = Service.mk c) as HL.
    { unfold Service.ListUsers, QueryContext, Pg.queryer; cbn -[Pg.exec].
      destruct (ctx_Err ctx); [done|].
      destruct (Pg.link c) eqn:Hlink; [done|].
      rewrite Pg_exec_select; simpl. destruct c; simpl in *. by subst. }
    destruct (Service.ListUsers _ _ _) as [s' out]; simpl in *. subst s'.
    split; [done|]. exists []. by rewrite app_nil_r.
  - (* the link goes down or comes back *)
    split; [done|]. exists []. by rewrite app_nil_r.
Qed.

Lemma run_spec (ops : list op) (s : Service.t Pg.conn) :
  Pg.dense (Pg.srv (Service.db s)) →
  Pg.dense (Pg.srv (Service.db (run s ops).1))
  ∧ ∃ new, table_of (run s ops).1 = table_of s ++ new
           ∧ Pg.id <$> new = assigned_ids (run s ops).2.
Proof.
  revert s. induction ops as [|o ops IH]; intros s Hd; simpl.
  - split; [done|]. exists []. by rewrite app_nil_r.
  - destruct (step_spec s o Hd) as (Hd1 & new1 & Ht1 & Ha1).
    destruct (step s o) as [s1 r]; simpl in *.
    destruct (IH s1 Hd1) as (Hd2 & new2 & Ht2 & Ha2).
    destruct (run s1 ops) as [s2 rs]; simpl in *.
    split; [done|]. exists (new1 ++ new2). split.
    + by rewrite Ht2, Ht1, app_assoc.
    + rewrite fmap_app, Ha1, Ha2. unfold assigned_ids; simpl.
      by destruct r as [[[[[u|]]|] [e|]]| |].
Qed.

Lemma run_app (ops1 ops2 : list op) (s : Service.t Pg.conn) :
  run s (ops1 ++ ops2) =
  ((run (run s ops1).1 ops2).1, (run s ops1).2 ++ (run (run s ops1).1 ops2).2).
Proof.
  revert s. induction ops1 as [|o ops1 IH]; intros s; simpl.
  - by destruct (run s ops2).
  - destruct (step s o) as [s1 r]. rewrite IH.
    destruct (run s1 ops1) as [s2 rs]; simpl.
    by destruct (run s2 ops2).
Qed.

(** Every state a run reaches from the migrated store has its sequence ahead
    of the stored ids. *)
Lemma run_ahead (ops : list op) :
  Pg.ahead (Pg.srv (Service.db (run fresh_service ops).1)).
Proof.
  apply Pg_dense_ahead.
  by destruct (run_spec ops fresh_service Pg_dense_migrated) as [Hd _].
Qed.

(** ** The handlers *)

(** C9.  [UsersServer.CreateUser] and [UsersServer.ListUsers] return what
    [Database.CreateUser] and [Database.GetUsers] return on the same handle,
    response and error unchanged, and leave the handle in the state the store
    operation left it in (so they issue the same statements, once).  The
    [Service] of package [users], which holds the handle itself, returns the
    same results as the store operations as well. *)
Theorem UsersServer_forwards_verbatim {DB : Type} `{!Queryer DB}
    (s : UsersServer.t DB) (ctx : Context)
    (creq : option CreateUserRequest) (lreq : ListUsersRequest) :
  UsersServer.CreateUser s ctx creq =
    (UsersServer.mk (Database.CreateUser (UsersServer.db s) ctx creq).1,
     (Database.CreateUser (UsersServer.db s) ctx creq).2)
  ∧ UsersServer.ListUsers s ctx lreq =
    (UsersServer.mk (Database.GetUsers (UsersServer.db s) ctx).1,
     (Database.GetUsers (UsersServer.db s) ctx).2)
  ∧ (Service.CreateUser (Service.mk (Database.db (UsersServer.db s))) ctx creq).2
    = (Database.CreateUser (UsersServer.db s) ctx creq).2
  ∧ (Service.ListUsers (Service.mk (Database.db (UsersServer.db s))) ctx lreq).2
    = (Database.GetUsers (UsersServer.db s) ctx).2.
Proof.
  destruct s as [[db]]; simpl. repeat split.
  - unfold UsersServer.CreateUser; simpl.
    by destruct (Database.CreateUser _ _ _).
  - unfold UsersServer.ListUsers; simpl.
    by destruct (Database.GetUsers _ _).
  - by rewrite Service_CreateUser_Database.
  - by rewrite Service_ListUsers_Database.
Qed.

(** C2.  A [CreateUser] that returns no error returns a response whose user
    is set and carries the email and the name of the request and, as its id,
    the value [v] the insert statement returned; on the store that value is
    the id of the one row the call added, which holds the same email and
    name.  [Database.CreateUser] returns the same response. *)
Theorem CreateUser_returns_populated_user (c c' : Pg.conn) (ctx : Context)
    (req : option CreateUserRequest)
    (out : option CreateUserResponse * option error) :
  Service.CreateUser (Service.mk c) ctx req = (Service.mk c', out) →
  out.2 = None →
  ∃ v,
    QueryContext c ctx insert_user_sql
      [VString (GetEmail req); VString (GetName req)]
    = (c', Ok {| rows_delivered := [[VInt64 v]]; rows_lasterr := None |})
    ∧ Pg.users (Pg.srv c') =
      Pg.users (Pg.srv c)
      ++ [{| Pg.id := v; Pg.email := GetEmail req; Pg.name := GetName req |}]
    ∧ out = (Some {| User_ := Some {| Id := v; Email := GetEmail req;
                                      Name := GetName req |} |}, None)
    ∧ (Database.CreateUser (Database.mk c) ctx req).2 = out.
Proof.
  intros Hcall Hok. destruct out as [resp err]; simpl in Hok; subst err.
  assert (ctx_Err ctx = None ∧ Pg.link c = None) as [Hctx Hlink].
  { destruct (ctx_Err ctx) as [e|] eqn:Hctx.
    - destruct (Pg_CreateUser_refused c ctx req) as [err Hr];
        [left; congruence|]. congruence.
    - destruct (Pg.link c) as [e|] eqn:Hlink; [|done].
      destruct (Pg_CreateUser_refused c ctx req) as [err Hr];
        [right; congruence|]. congruence. }
  pose proof (Service_CreateUser_Database c ctx req) as Hdb.
  rewrite Hcall in Hdb. injection Hdb as _ Hdb.
  rewrite Pg_CreateUser_eq in Hcall by done.
  destruct (Pg_insert_user_cases (Pg.srv c) (GetEmail req) (GetName req))
    as [(err & Hr & _)|(Hins & _)].
  { rewrite Hr in Hcall. congruence. }
  rewrite Hins in Hcall; simpl in Hcall. injection Hcall as <- <-.
  exists (Pg.seq_users_id (Pg.srv c)). repeat split; [|done].
  unfold QueryContext, Pg.queryer; cbn -[Pg.exec].
  by rewrite Hctx, Hlink, Pg_exec_insert, Hins.
Qed.

(** C3.  When the query succeeds and one of the rows it delivers fails to
    scan, [ListUsers] returns a nil response together with an error, and that
    error is the scan error of a delivered row: no row is skipped and no
    partial list is returned.  [Database.GetUsers] does the same. *)
Theorem ListUsers_fails_on_malformed_row {DB : Type} `{!Queryer DB}
    (s : Service.t DB) (ctx : Context) (req : ListUsersRequest)
    (db' : DB) (rows : Rows) (cols : list Value) (e : error) :
  QueryContext (Service.db s) ctx select_users_sql [] = (db', Ok rows) →
  cols ∈ rows_delivered rows →
  Scan_User cols = Err e →
  ∃ err,
    Service.ListUsers s ctx req = (Service.mk db', (None, Some err))
    ∧ Exists (λ bad, Scan_User bad = Err err) (rows_delivered rows)
    ∧ Database.GetUsers (Database.mk (Service.db s)) ctx
      = (Database.mk db', (None, Some err)).
Proof.
  intros Hq Hin Hbad.
  destruct (scan_loop_first_failure (rows_delivered rows) []) as (err & Hl & Hex).
  { apply Exists_exists. exists cols. split; [done|eauto]. }
  exists err. unfold Service.ListUsers, Database.GetUsers; simpl.
  by rewrite Hq, Hl.
Qed.

(** C5.  On a store whose [users] table has no rows, with a live context and
    the link up, [ListUsers] returns a response with an empty list and a nil
    error, and so does [Database.GetUsers]; the same holds on any handle
    whose query delivers no row. *)
Theorem ListUsers_empty_table (c : Pg.conn) (ctx : Context)
    (req : ListUsersRequest) :
  Pg.users (Pg.srv c) = [] → ctx_Err ctx = None → Pg.link c = None →
  Service.ListUsers (Service.mk c) ctx req
    = (Service.mk c, (Some {| Users := [] |}, None))
  ∧ Database.GetUsers (Database.mk c) ctx
    = (Database.mk c, (Some {| Users := [] |}, None))
  ∧ ∀ (DB : Type) (Q : Queryer DB) (s : Service.t DB) (db' : DB) (rows : Rows),
      QueryContext (Service.db s) ctx select_users_sql [] = (db', Ok rows) →
      rows_delivered rows = [] →
      Service.ListUsers s ctx req
        = (Service.mk db', (Some {| Users := [] |}, None)).
Proof.
  intros Hempty Hctx Hlink.
  pose proof (Pg_ListUsers_ok c ctx req Hctx Hlink) as HL.
  rewrite Hempty in HL; simpl in HL. split; [done|]. split.
  - pose proof (Service_ListUsers_Database c ctx req) as Hdb.
    rewrite HL in Hdb.
    destruct (Database.GetUsers (Database.mk c) ctx) as [[d] out].
    simpl in Hdb. congruence.
  - intros DB Q s db' rows Hq Hnil. unfold Service.ListUsers.
    by rewrite Hq, Hnil.
Qed.

(** ** Identifiers *)

Lemma filter_unused_old (P : User → Prop) `{!∀ x, Decision (P x)}
    (s : Pg.server) :
  filter (λ x, P x ∧ Id x ∉ Pg.ids s) (Pg.to_User <$> Pg.users s) = [].
Proof.
  unfold Pg.ids.
  assert (∀ l : list Pg.row, (∀ r, r ∈ l → Pg.id r ∈ Pg.id <$> Pg.users s) →
    filter (λ x, P x ∧ Id x ∉ Pg.id <$> Pg.users s) (Pg.to_User <$> l) = [])
    as Hgen.
  { induction l as [|r l IH]; intros Hall; [done|]. simpl.
    rewrite filter_cons_False.
    - apply IH. intros r' Hr'. apply Hall. by right.
    - simpl. intros [_ Hnot]. apply Hnot, Hall. by left. }
  apply Hgen. intros r Hr. by apply list_elem_of_fmap_2.
Qed.

(** C1.  For a pair the store accepts, on a store in a state the service can
    have produced (the sequence ahead of every stored id, an INTEGER value
    left), with live contexts and the link up: [CreateUser] succeeds with a
    user [u], the [ListUsers] that follows succeeds with a list [us], and
    among [us] exactly one entity has the email and the name of the request
    and an identifier that no row carried before the call.  That entity is
    [u], whose identifier is the one the call was assigned.  (Entities that
    share only the email and the name with [u] may be listed too.) *)
Theorem CreateUser_then_ListUsers (c : Pg.conn) (ctx ctx' : Context)
    (req : option CreateUserRequest) (lreq : ListUsersRequest) :
  Pg.valid_text (GetEmail req) = true → Pg.valid_text (GetName req) = true →
  ctx_Err ctx = None → ctx_Err ctx' = None → Pg.link c = None →
  Pg.ahead (Pg.srv c) → (Pg.seq_users_id (Pg.srv c) ≤ Pg.int4_max)%Z →
  ∃ u us s1,
    Service.CreateUser (Service.mk c) ctx req
      = (s1, (Some {| User_ := Some u |}, None))
    ∧ Service.ListUsers s1 ctx' lreq = (s1, (Some {| Users := us |}, None))
    ∧ Email u = GetEmail req ∧ Name u = GetName req
    ∧ (Id u ∉ Pg.ids (Pg.srv c))
    ∧ filter (λ x, (Email x = GetEmail req ∧ Name x = GetName req)
                   ∧ Id x ∉ Pg.ids (Pg.srv c)) us = [u].
Proof.
  intros He Hn Hctx Hctx' Hlink Hah H32.
  pose proof (Pg_ahead_fresh_id _ Hah) as Hfresh.
  eexists _, _, _. split; [by apply Pg_CreateUser_ok|].
  split; [by apply Pg_ListUsers_ok|]. simpl.
  repeat split; [done|].
  rewrite fmap_app, filter_app, filter_unused_old; simpl.
  by rewrite filter_cons_True, filter_nil.
Qed.

(** C4.  On such a store, two [CreateUser] calls in a row with the same
    request both succeed, the two users carry the email and the name of the
    request and two different identifiers, and both rows are stored. *)
Theorem duplicate_CreateUser_both_succeed (c : Pg.conn) (ctx1 ctx2 : Context)
    (req : option CreateUserRequest) :
  Pg.valid_text (GetEmail req) = true → Pg.valid_text (GetName req) = true →
  ctx_Err ctx1 = None → ctx_Err ctx2 = None → Pg.link c = None →
  Pg.ahead (Pg.srv c) → (Pg.seq_users_id (Pg.srv c) + 1 ≤ Pg.int4_max)%Z →
  ∃ u1 u2 s1 s2,
    Service.CreateUser (Service.mk c) ctx1 req
      = (s1, (Some {| User_ := Some u1 |}, None))
    ∧ Service.CreateUser s1 ctx2 req
      = (s2, (Some {| User_ := Some u2 |}, None))
    ∧ Id u1 ≠ Id u2
    ∧ Email u1 = GetEmail req ∧ Name u1 = GetName req
    ∧ Email u2 = GetEmail req ∧ Name u2 = GetName req
    ∧ table_of s2 =
      Pg.users (Pg.srv c)
      ++ [{| Pg.id := Id u1; Pg.email := GetEmail req; Pg.name := GetName req |};
          {| Pg.id := Id u2; Pg.email := GetEmail req; Pg.name := GetName req |}].
Proof.
  intros He Hn Hctx1 Hctx2 Hlink [H1 Hall] H32.
  pose proof (Pg_ahead_fresh_id _ (conj H1 Hall)) as Hfresh.
  eexists _, _, _, _. split.
  { apply Pg_CreateUser_ok; try done. unfold Pg.int4_max in *. lia. }
  split.
  { apply Pg_CreateUser_ok; simpl; try done.
    unfold Pg.ids; simpl. rewrite fmap_app; simpl.
    intros [Hin|Hin]%elem_of_app.
    - rewrite Forall_forall in Hall. apply Hall in Hin. lia.
    - apply list_elem_of_singleton in Hin. lia. }
  simpl. repeat split; [lia|].
  unfold table_of; simpl. by rewrite <- app_assoc.
Qed.

(** C6.  In every run of [CreateUser] and [ListUsers] calls against the
    migrated store, whatever the contexts and whenever the link fails or
    comes back, the identifiers that the successful [CreateUser] calls
    returned are, in order, 1, 2, ..., n.  Hence each is greater than all
    that were assigned before it, the first is 1, and none occurs twice.
    They are the ids of the stored rows, in order, and the rows stored at
    some point of a run are kept unchanged, as a prefix of the table, by
    whatever the run does next. *)
Theorem identifiers_increase_from_one (ops ops' : list op) :
  let a := assigned_ids (run fresh_service ops).2 in
  a = seqZ 1 (Z.of_nat (length a))
  ∧ (∀ (i j : nat) (x y : Z),
       (i < j)%nat → a !! i = Some x → a !! j = Some y → (x < y)%Z)
  ∧ (∀ x, head a = Some x → x = 1%Z)
  ∧ NoDup a
  ∧ Pg.id <$> table_of (run fresh_service ops).1 = a
  ∧ table_of (run fresh_service ops).1
    `prefix_of` table_of (run fresh_service (ops ++ ops')).1.
Proof.
  intros a.
  destruct (run_spec ops fresh_service Pg_dense_migrated)
    as (Hd & new & Ht & Ha).
  fold a in Ha. unfold table_of at 2 in Ht; simpl in Ht. subst new.
  assert (a = seqZ 1 (Z.of_nat (length a))) as Hseq.
  { destruct Hd as (Hids & _). unfold Pg.ids in Hids.
    fold (table_of (run fresh_service ops).1) in Hids.
    rewrite <- Ha, length_fmap. by rewrite Hids at 1. }
  split; [done|]. split; [|split; [|split; [|split]]].
  - intros i j x y Hij Hx Hy. rewrite Hseq in Hx, Hy.
    apply lookup_seqZ in Hx as [-> _]. apply lookup_seqZ in Hy as [-> _]. lia.
  - intros x Hx. rewrite Hseq in Hx.
    destruct (length a) as [|k]; [done|].
    rewrite seqZ_cons in Hx by lia. simpl in Hx. congruence.
  - rewrite Hseq. apply NoDup_seqZ.
  - done.
  - rewrite run_app; simpl.
    destruct (run_spec ops' (run fresh_service ops).1 Hd)
      as (_ & new' & Ht' & _).
    rewrite Ht'. by apply prefix_app_r.
Qed.

(** ** Configuration *)

Lemma Getenv_empty_unset (env : gmap string string) (key other : string) :
  Getenv (<[key := ""]> env) other = Getenv (delete key env) other.
Proof.
  unfold Getenv. destruct (decide (key = other)) as [->|Hne].
  - by rewrite lookup_insert_eq, lookup_delete_eq.
  - by rewrite lookup_insert_ne, lookup_delete_ne.
Qed.

(** C10.  A variable set to the empty string resolves like a variable that is
    not set: [getEnvOrDefault] returns the default in both cases, and returns
    the value of the variable exactly when that value is not empty.  The
    database configuration built from the flag defaults is therefore the same
    whether a variable is empty or unset. *)
Theorem empty_variable_resolves_to_default (env flags : gmap string string)
    (key defaultValue : string) :
  getEnvOrDefault (<[key := ""]> env) key defaultValue = defaultValue
  ∧ getEnvOrDefault (delete key env) key defaultValue = defaultValue
  ∧ (∀ value, value ≠ "" →
       getEnvOrDefault (<[key := value]> env) key defaultValue = value)
  ∧ (∀ other d, getEnvOrDefault (<[key := ""]> env) other d
                = getEnvOrDefault (delete key env) other d)
  ∧ dbConfig (<[key := ""]> env) flags = dbConfig (delete key env) flags.
Proof.
  assert (∀ other d, getEnvOrDefault (<[key := ""]> env) other d
                     = getEnvOrDefault (delete key env) other d) as Hsame.
  { intros other d. unfold getEnvOrDefault. by rewrite Getenv_empty_unset. }
  repeat split.
  - unfold getEnvOrDefault, Getenv. by rewrite lookup_insert_eq.
  - unfold getEnvOrDefault, Getenv. by rewrite lookup_delete_eq.
  - intros value Hne. unfold getEnvOrDefault, Getenv.
    rewrite lookup_insert_eq; simpl. by rewrite decide_True.
  - done.
  - unfold dbConfig, dbHost, dbPort, dbUser, dbPassword, dbName, dbSSLMode.
    by rewrite !Hsame.
Qed.

(** ** The process *)

Lemma bind_Return {A B : Type} (m : Proc A) (f : A → Proc B) (a : A) :
  halt m = Return a →
  m ≫= f = mkProc (trace m ++ trace (f a)) (halt (f a)).
Proof. intros H. unfold mbind, Proc_bind. by rewrite H. Qed.

Lemma bind_Exit {A B : Type} (m : Proc A) (f : A → Proc B) (code : Z) :
  halt m = Exit code → m ≫= f = mkProc (trace m) (Exit code).
Proof. intros H. unfold mbind, Proc_bind. by rewrite H. Qed.

(** [runMigrations] returns (it never ends the process itself), opens no
    listener, and reports an error exactly when creating the migration
    instance failed or [Up] failed with something else than [ErrNoChange]. *)
Lemma runMigrations_spec (o : Outcomes) (config : Config.t) :
  quiet (trace (runMigrations o config))
  ∧ halt (runMigrations o config) =
    Return
      match migrate_New_err o with
      | Some err => Some (Errorf_w "failed to create migration instance" err)
      | None =>
          match m_Up_err o with
          | Some err =>
              if decide (err = ErrNoChange) then None
              else Some (Errorf_w "failed to run migrations" err)
          | None => None
          end
      end.
Proof.
  unfold runMigrations, quiet.
  destruct (migrate_New_err o) as [e|].
  { simpl. split; [by repeat constructor|done]. }
  destruct (m_Up_err o) as [e|].
  - case_decide as Hd; destruct (decide (e = ErrNoChange)) as [->|Hne]; simpl.
    + by destruct Hd as [_ []].
    + split; [by repeat constructor|done].
    + split; [by repeat constructor|done].
    + destruct Hd. split; congruence.
  - case_decide as Hd; simpl.
    + by destruct Hd as [[] _].
    + split; [by repeat constructor|done].
Qed.

Lemma emit_bind {B : Type} (e : event) (f : unit → Proc B) :
  emit e ≫= f = mkProc (e :: trace (f tt)) (halt (f tt)).
Proof. done. Qed.

Lemma quiet_app (tr1 tr2 : list event) :
  quiet tr1 → quiet tr2 → quiet (tr1 ++ tr2).
Proof. unfold quiet. intros. by apply Forall_app. Qed.

(** C7.  When [Up] reports [ErrNoChange], [runMigrations] returns a nil
    error after the same calls and log line as when [Up] succeeds, and
    [main], once telemetry is set up, goes on to open the gRPC
    listener.  When creating the migration instance fails, or [Up] fails with
    any other error, [runMigrations] returns an error and [main] ends the
    process with status 1 without having opened a listener. *)
Theorem migrations_gate_startup (o : Outcomes) (env flags : gmap string string) :
  (migrate_New_err o = None → m_Up_err o = Some ErrNoChange →
     halt (runMigrations o (dbConfig env flags)) = Return None
     ∧ calls (trace (runMigrations o (dbConfig env flags)))
       = [migrate_New "file://migrations"
            ("postgres://" +:+ dbUser env flags +:+ ":" +:+ dbPassword env flags
             +:+ "@" +:+ dbHost env flags +:+ ":" +:+ dbPort env flags
             +:+ "/" +:+ dbName env flags
             +:+ "?sslmode=" +:+ dbSSLMode env flags);
          m_Up; m_Close]
     ∧ ∀ tp mp, InitOTel_out o = Ok tp → InitOTelMetrics_out o = Ok mp →
         net_Listen "tcp" ":8080" ∈ trace (main o env flags))
  ∧ (∀ e,
       migrate_New_err o = Some e
       ∨ (migrate_New_err o = None ∧ m_Up_err o = Some e ∧ e ≠ ErrNoChange) →
       (∃ err, halt (runMigrations o (dbConfig env flags)) = Return (Some err))
       ∧ halt (main o env flags) = Exit 1
       ∧ exit_status (main o env flags) ≠ 0%Z
       ∧ quiet (trace (main o env flags))).
Proof.
  split.
  - intros Hnew Hup.
    destruct (runMigrations_spec o (dbConfig env flags)) as [_ Hhalt].
    rewrite Hnew, Hup, decide_True in Hhalt by done.
    split; [done|]. split.
    { unfold runMigrations. rewrite Hnew, Hup.
      rewrite decide_False by (intros [_ H]; by apply H). done. }
    intros tp mp Htp Hmp. unfold main. rewrite Htp, Hmp.
    do 2 (rewrite emit_bind; cbn [trace halt]).
    do 2 right.
    match goal with
    | |- _ ∈ trace (?m ≫= ?f) =>
        assert (∃ u, halt m = Return u) as [u Hm]
    end.
    { destruct mp; [|by eexists]. rewrite emit_bind; cbn [trace halt].
      destruct (runtime_Start_err o); by eexists. }
    rewrite (bind_Return _ _ _ Hm); cbn [trace halt].
    apply elem_of_app. right.
    rewrite (bind_Return _ _ _ Hhalt); cbn [trace halt].
    apply elem_of_app. right.
    unfold exit_if_error at 1. rewrite (bind_Return _ _ tt) by done.
    cbn [trace halt mret Proc_ret app]. rewrite emit_bind; cbn [trace].
    left.
  - intros e Hfail.
    destruct (runMigrations_spec o (dbConfig env flags)) as [Hq Hhalt].
    assert (∃ err, halt (runMigrations o (dbConfig env flags))
                   = Return (Some err)) as [err Herr].
    { destruct Hfail as [Hnew|(Hnew & Hup & Hne)].
      - rewrite Hnew in Hhalt. eauto.
      - rewrite Hnew, Hup, decide_False in Hhalt by done. eauto. }
    split; [eauto|].
    assert (halt (main o env flags) = Exit 1
            ∧ quiet (trace (main o env flags))) as [Hexit Hquiet].
    { unfold main.
      rewrite emit_bind; cbn [trace halt].
      destruct (InitOTel_out o) as [tp|e1]; [|by split; [|repeat constructor]].
      rewrite emit_bind; cbn [trace halt].
      destruct (InitOTelMetrics_out o) as [mp|e2];
        [|by split; [|repeat constructor]].
      match goal with
      | |- halt (?m ≫= ?f) = _ ∧ _ =>
          assert (∃ u, halt m = Return u ∧ quiet (trace m)) as (u & Hm & Hqm)
      end.
      { destruct mp; [|by eexists; split; [|constructor]].
        rewrite emit_bind; cbn [trace halt].
        destruct (runtime_Start_err o); eexists;
          (split; [done|by repeat constructor]). }
      rewrite (bind_Return _ _ _ Hm); cbn [trace halt].
      rewrite (bind_Return _ _ _ Herr); cbn [trace halt].
      unfold exit_if_error at 1 3. rewrite !emit_bind; cbn [trace halt].
      rewrite (bind_Exit _ _ 1) by done. cbn [trace halt os_Exit].
      split; [done|].
      repeat constructor.
      apply quiet_app; [done|]. apply quiet_app; [done|].
      by repeat constructor. }
    split; [done|]. split; [|done].
    unfold exit_status. by rewrite Hexit.
Qed.

(** X20.  The handler goroutine, run to its end from the receipt of the
    signal on, calls in this order: the shutdown of the HTTP gateway with a
    timeout of 10 seconds, the graceful stop of the gRPC server, the close
    of the store handle, and then, when the close succeeded, the shutdown of
    the trace provider and of the metrics provider (each when there is one).
    A failed close is logged and the handler calls [os.Exit(1)] before any
    telemetry call.  A failed HTTP shutdown or telemetry shutdown is logged,
    does not change the calls made, and the handler returns. *)
Theorem signal_handler_order (o : Outcomes) (tp mp : bool) :
  let p := signal_handler o tp mp in
  (impl_Close_err o = None →
     calls (trace p) =
       [gwServer_Shutdown 10; grpcServer_GracefulStop; impl_Close]
       ++ (if tp then [tp_Shutdown 30] else [])
       ++ (if mp then [mp_Shutdown 30] else [])
     ∧ halt p = Return tt)
  ∧ (impl_Close_err o ≠ None →
     calls (trace p) =
       [gwServer_Shutdown 10; grpcServer_GracefulStop; impl_Close]
     ∧ slog LevelError "failed to properly close users service" ∈ trace p
     ∧ halt p = Exit 1)
  ∧ (impl_Close_err o = None → tp = true → tp_Shutdown_err o ≠ None →
     slog LevelError "failed to shutdown OpenTelemetry traces" ∈ trace p)
  ∧ (impl_Close_err o = None → mp = true → mp_Shutdown_err o ≠ None →
     slog LevelError "failed to shutdown OpenTelemetry metrics" ∈ trace p)
  ∧ (gwServer_Shutdown_err o ≠ None →
     slog LevelError "failed to shutdown HTTP server" ∈ trace p).
Proof.
  unfold signal_handler, ShutdownOTel, ShutdownOTelMetrics, log_if_error,
    exit_if_error, ShutdownTimeout.
  destruct (gwServer_Shutdown_err o), (impl_Close_err o),
    (tp_Shutdown_err o), (mp_Shutdown_err o), tp, mp; simpl;
    repeat split; intros; try done; set_solver.
Qed.

(** The end of [main].  Once [ListenAndServe] has returned
    [ErrServerClosed], which the shutdown of the gateway makes it do, [main]
    runs its deferred telemetry shutdowns, metrics first, and returns: a
    process that ends there has status 0, whatever the shutdowns answered. *)
Lemma main_returns_after_ErrServerClosed (o : Outcomes)
    (env flags : gmap string string) (tp mp : bool) :
  InitOTel_out o = Ok tp → InitOTelMetrics_out o = Ok mp →
  migrate_New_err o = None → m_Up_err o = None →
  net_Listen_err o = None → users_NewService_err o = None →
  grpc_NewClient_err o = None → RegisterUserServiceHandler_err o = None →
  gwServer_ListenAndServe_err o = Some ErrServerClosed →
  exit_status (main o env flags) = 0%Z
  ∧ ([gwServer_ListenAndServe ":8081"]
     ++ (if mp then [mp_Shutdown 30] else [])
     ++ (if tp then [tp_Shutdown 30] else []))
    `suffix_of` calls (trace (main o env flags)).
Proof.
  intros Htp Hmp Hnew Hup Hlis Hsvc Hcli Hreg Hserve.
  unfold main, runMigrations, ShutdownOTel, ShutdownOTelMetrics,
    ShutdownTimeout, log_if_error, exit_if_error.
  rewrite Htp, Hmp, Hnew, Hup, Hlis, Hsvc, Hcli, Hreg, Hserve.
  generalize (dbConfig env flags). intros config.
  destruct tp, mp, (runtime_Start_err o), (tp_Shutdown_err o),
    (mp_Shutdown_err o); (split; [reflexivity|]);
    cbn -[String.append];
    repeat first [reflexivity | apply suffix_cons_r].
Qed.

(** What [main] does once [ListenAndServe] has answered
    [http.ErrServerClosed]: the deferred telemetry shutdowns, metrics first,
    then the return. *)
Lemma main_after_serve (o : Outcomes) (env flags : gmap string string)
    (tp mp : bool) :
  InitOTel_out o = Ok tp → InitOTelMetrics_out o = Ok mp →
  migrate_New_err o = None →
  m_Up_err o = None ∨ m_Up_err o = Some ErrNoChange →
  net_Listen_err o = None → users_NewService_err o = None →
  grpc_NewClient_err o = None → RegisterUserServiceHandler_err o = None →
  gwServer_ListenAndServe_err o = Some ErrServerClosed →
  halt (main o env flags) = Return tt
  ∧ after_serve (trace (main o env flags))
    = Some ((if mp then
               mp_Shutdown 30
               :: match mp_Shutdown_err o with
                  | Some _ =>
                      [slog LevelError
                         "failed to shutdown OpenTelemetry metrics"]
                  | None => []
                  end
             else [])
            ++ (if tp then
                  tp_Shutdown 30
                  :: match tp_Shutdown_err o with
                     | Some _ =>
                         [slog LevelError
                            "failed to shutdown OpenTelemetry traces"]
                     | None => []
                     end
                else [])).
Proof.
  intros Htp Hmp Hnew Hup Hlis Hsvc Hcli Hreg Hserve.
  unfold main, runMigrations, ShutdownOTel, ShutdownOTelMetrics,
    ShutdownTimeout, log_if_error, exit_if_error.
  rewrite Htp, Hmp, Hnew, Hlis, Hsvc, Hcli, Hreg, Hserve.
  generalize (dbConfig env flags). intros config.
  destruct Hup as [-> | ->];
    destruct tp, mp, (runtime_Start_err o), (tp_Shutdown_err o),
      (mp_Shutdown_err o); split; reflexivity.
Qed.

(** [main], released, runs to its end when it is given its steps. *)
Lemma run_schedule_Main (st : goroutines) :
  shutdown_called st = true →
  run_schedule (replicate (S (length (main_rest st))) Main) st
  = (main_rest st, Some (status_of (main_end st))).
Proof.
  destruct st as [m me h he c]; cbn [shutdown_called main_rest main_end].
  intros ->. induction m as [|e m IH]; [reflexivity|].
  cbn [length replicate run_schedule sched_step shutdown_called main_rest
       main_end handler_rest handler_end] in *.
  by rewrite IH.
Qed.

(** The handler runs to its end when it is given its steps: the process
    ends there when the handler ends in [os.Exit], and goes on with the rest
    of the schedule otherwise. *)
Lemma run_schedule_Handler (st : goroutines) (sched : list goroutine) :
  run_schedule (replicate (S (length (handler_rest st))) Handler ++ sched) st
  = match handler_end st with
    | Exit code => (handler_rest st, Some code)
    | Return _ =>
        let r :=
          run_schedule sched
            {| main_rest := main_rest st;
               main_end := main_end st;
               handler_rest := [];
               handler_end := handler_end st;
               shutdown_called :=
                 shutdown_called st || existsb is_Shutdown (handler_rest st) |}
        in (handler_rest st ++ r.1, r.2)
    end.
Proof.
  destruct st as [m me h he c];
    cbn [shutdown_called main_rest main_end handler_rest handler_end].
  revert c. induction h as [|e h IH]; intros c.
  - cbn [length replicate app run_schedule sched_step shutdown_called
         main_rest main_end handler_rest handler_end existsb].
    destruct he; [|reflexivity].
    rewrite orb_false_r. by destruct (run_schedule sched _).
  - cbn [length replicate app run_schedule sched_step shutdown_called
         main_rest main_end handler_rest handler_end existsb] in *.
    rewrite IH. destruct he; [|reflexivity].
    cbn [fst snd app]. by rewrite orb_assoc.
Qed.

(** When the second step of the handler is its call of [gwServer.Shutdown],
    the schedule [main_first] ends the process at the return of [main]. *)
Lemma run_schedule_main_first (st : goroutines) (e1 e2 : event)
    (h : list event) :
  handler_rest st = e1 :: e2 :: h → is_Shutdown e2 = true →
  run_schedule (main_first st) st
  = (e1 :: e2 :: main_rest st, Some (status_of (main_end st))).
Proof.
  destruct st as [m me h0 he c]; unfold main_first;
    cbn [main_rest main_end handler_rest].
  intros -> Hs.
  pose proof (run_schedule_Main
                {| main_rest := m; main_end := me; handler_rest := h;
                   handler_end := he;
                   shutdown_called := c || is_Shutdown e1 || is_Shutdown e2 |})
    as Hm.
  cbn [main_rest main_end shutdown_called] in Hm.
  cbn [app run_schedule sched_step handler_rest shutdown_called main_rest
       main_end handler_end].
  rewrite Hm; [reflexivity|]. rewrite Hs. apply orb_true_r.
Qed.

(** C8.  The shutdown after a termination signal is not awaited.  Take a
    process that has come to serve.  The handler goroutine has the shutdown
    steps in their order (gateway, gRPC server, store, telemetry), but
    [main] returns as soon as the handler has called [gwServer.Shutdown].
    Under the schedule in which [main] then runs to its end, the process
    ends with status 0 after the calls [gwServer.Shutdown], metrics
    shutdown, trace shutdown: the gRPC server is never stopped and the store
    handle never closed, whatever closing it would have answered.  Under the
    schedule in which the handler runs to its end first, the steps come in
    that order, followed by the deferred shutdowns of [main], and a failing
    close ends the process with status 1.  So neither the order of the
    shutdown steps nor the exit status after a failing close is fixed by
    the code. *)
Theorem shutdown_is_not_awaited (o : Outcomes) (env flags : gmap string string)
    (tp mp : bool) :
  InitOTel_out o = Ok tp → InitOTelMetrics_out o = Ok mp →
  migrate_New_err o = None →
  m_Up_err o = None ∨ m_Up_err o = Some ErrNoChange →
  net_Listen_err o = None → users_NewService_err o = None →
  grpc_NewClient_err o = None → RegisterUserServiceHandler_err o = None →
  gwServer_ListenAndServe_err o = Some ErrServerClosed →
  ∃ st, on_signal o env flags = Some st
    ∧ (let r := run_schedule (main_first st) st in
       r.2 = Some 0%Z
       ∧ calls r.1
         = [gwServer_Shutdown 10]
           ++ (if mp then [mp_Shutdown 30] else [])
           ++ (if tp then [tp_Shutdown 30] else [])
       ∧ (grpcServer_GracefulStop ∉ r.1)
       ∧ (impl_Close ∉ r.1))
    ∧ (let r := run_schedule (handler_first st) st in
       (impl_Close_err o = None →
        r.2 = Some 0%Z
        ∧ calls r.1
          = [gwServer_Shutdown 10; grpcServer_GracefulStop; impl_Close]
            ++ (if tp then [tp_Shutdown 30] else [])
            ++ (if mp then [mp_Shutdown 30] else [])
            ++ (if mp then [mp_Shutdown 30] else [])
            ++ (if tp then [tp_Shutdown 30] else []))
       ∧ (impl_Close_err o ≠ None →
          r.2 = Some 1%Z
          ∧ calls r.1
            = [gwServer_Shutdown 10; grpcServer_GracefulStop; impl_Close])).
Proof.
  intros Htp Hmp Hnew Hup Hlis Hsvc Hcli Hreg Hserve.
  destruct (main_after_serve o env flags tp mp) as [Hend Hrest]; try done.
  unfold on_signal. rewrite Htp, Hmp, Hrest, Hend, Hserve.
  rewrite decide_True by done.
  eexists; split; [reflexivity|]. split.
  - erewrite run_schedule_main_first; cycle 1.
    { cbn [handler_rest]. unfold signal_handler.
      rewrite !emit_bind. cbn [trace]. reflexivity. }
    { reflexivity. }
    cbn [main_rest main_end status_of fst snd].
    split; [done|].
    destruct tp, mp, (tp_Shutdown_err o), (mp_Shutdown_err o);
      (split; [reflexivity|]); split; intros Hin;
      repeat (apply elem_of_cons in Hin as [Hin|Hin]; [discriminate Hin|]);
      by apply elem_of_nil in Hin.
  - unfold handler_first. rewrite run_schedule_Handler.
    cbn [main_rest main_end handler_rest handler_end shutdown_called].
    unfold signal_handler, ShutdownOTel, ShutdownOTelMetrics, log_if_error,
      exit_if_error, ShutdownTimeout.
    destruct (impl_Close_err o) as [e|].
    + split; [done|]. intros _.
      destruct (gwServer_Shutdown_err o); by cbn.
    + split; [|done]. intros _.
      destruct (gwServer_Shutdown_err o), tp, mp,
        (tp_Shutdown_err o), (mp_Shutdown_err o); cbn;
        by split.
Qed.

(** ** The properties at sample inputs *)

Lemma CreateUser_then_ListUsers_witness :
  ∃ u us s1,
    Service.CreateUser (Service.mk one_user) context_Background jdoe
      = (s1, (Some {| User_ := Some u |}, None))
    ∧ Service.ListUsers s1 context_Background Build_ListUsersRequest
      = (s1, (Some {| Users := us |}, None))
    ∧ Email u = GetEmail jdoe ∧ Name u = GetName jdoe
    ∧ (Id u ∉ Pg.ids (Pg.srv one_user))
    ∧ filter (λ x, (Email x = GetEmail jdoe ∧ Name x = GetName jdoe)
                   ∧ Id x ∉ Pg.ids (Pg.srv one_user)) us = [u].
Proof.
  apply (CreateUser_then_ListUsers one_user context_Background
           context_Background jdoe Build_ListUsersRequest).
  - reflexivity.
  - reflexivity.
  - reflexivity.
  - reflexivity.
  - reflexivity.
  - split; [simpl; lia|]. repeat constructor; simpl; lia.
  - unfold Pg.int4_max; simpl; lia.
Defined.

Lemma CreateUser_returns_populated_user_witness :
  ∃ v,
    QueryContext one_user context_Background insert_user_sql
      [VString (GetEmail jdoe); VString (GetName jdoe)]
    = (Pg.connect {| Pg.seq_users_id := 3;
                     Pg.users := [jdoe_row;
                       {| Pg.id := 2; Pg.email := "jdoe@example.com";
                          Pg.name := "John Doe" |}] |},
       Ok {| rows_delivered := [[VInt64 v]]; rows_lasterr := None |})
    ∧ Pg.users (Pg.srv (Pg.connect {| Pg.seq_users_id := 3;
                     Pg.users := [jdoe_row;
                       {| Pg.id := 2; Pg.email := "jdoe@example.com";
                          Pg.name := "John Doe" |}] |})) =
      Pg.users (Pg.srv one_user)
      ++ [{| Pg.id := v; Pg.email := GetEmail jdoe; Pg.name := GetName jdoe |}]
    ∧ (Some {| User_ := Some (jdoe_user 2) |}, @None error)
      = (Some {| User_ := Some {| Id := v; Email := GetEmail jdoe;
                                  Name := GetName jdoe |} |}, None)
    ∧ (Database.CreateUser (Database.mk one_user) context_Background jdoe).2
      = (Some {| User_ := Some (jdoe_user 2) |}, None).
Proof.
  apply (CreateUser_returns_populated_user one_user _ context_Background jdoe
           (Some {| User_ := Some (jdoe_user 2) |}, None)).
  - reflexivity.
  - reflexivity.
Defined.

Lemma ListUsers_fails_on_malformed_row_witness :
  ∃ err,
    Service.ListUsers (Service.mk scan_error_script) context_Background
      Build_ListUsersRequest
    = (Service.mk [], (None, Some err))
    ∧ Exists (λ bad, Scan_User bad = Err err) (rows_delivered scan_error_rows)
    ∧ Database.GetUsers (Database.mk scan_error_script) context_Background
      = (Database.mk [], (None, Some err)).
Proof.
  apply (ListUsers_fails_on_malformed_row (Service.mk scan_error_script)
           context_Background Build_ListUsersRequest [] scan_error_rows
           [VString "invalid"; VString "test@example.com"; VString "Test"]
           (Errorf_w "sql: Scan error on column index 0"
              (errors_New "converting driver.Value type string to a int64"))).
  - reflexivity.
  - right. left.
  - reflexivity.
Defined.

Lemma duplicate_CreateUser_both_succeed_witness :
  ∃ u1 u2 s1 s2,
    Service.CreateUser fresh_service context_Background jdoe
      = (s1, (Some {| User_ := Some u1 |}, None))
    ∧ Service.CreateUser s1 context_Background jdoe
      = (s2, (Some {| User_ := Some u2 |}, None))
    ∧ Id u1 ≠ Id u2
    ∧ Email u1 = GetEmail jdoe ∧ Name u1 = GetName jdoe
    ∧ Email u2 = GetEmail jdoe ∧ Name u2 = GetName jdoe
    ∧ table_of s2 =
      []
      ++ [{| Pg.id := Id u1; Pg.email := GetEmail jdoe; Pg.name := GetName jdoe |};
          {| Pg.id := Id u2; Pg.email := GetEmail jdoe; Pg.name := GetName jdoe |}].
Proof.
  apply (duplicate_CreateUser_both_succeed (Pg.connect Pg.migrated)
           context_Background context_Background jdoe).
  - reflexivity.
  - reflexivity.
  - reflexivity.
  - reflexivity.
  - reflexivity.
  - split; [simpl; lia|constructor].
  - unfold Pg.int4_max; simpl; lia.
Defined.

Lemma ListUsers_empty_table_witness :
  Service.ListUsers fresh_service context_Background Build_ListUsersRequest
  = (fresh_service, (Some {| Users := [] |}, None)).
Proof.
  apply (ListUsers_empty_table (Pg.connect Pg.migrated) context_Background
           Build_ListUsersRequest); reflexivity.
Defined.

Lemma identifiers_increase_from_one_witness :
  assigned_ids
    (run fresh_service
       [DoCreateUser context_Background jdoe;
        DoLink (Some (errors_New "connection refused"));
        DoCreateUser context_Background jdoe;
        DoLink None;
        DoCreateUser {| ctx_Err := Some Canceled |} jdoe;
        DoCreateUser context_Background jdoe]).2
  = seqZ 1 2.
Proof.
  apply (identifiers_increase_from_one
           [DoCreateUser context_Background jdoe;
            DoLink (Some (errors_New "connection refused"));
            DoCreateUser context_Background jdoe;
            DoLink None;
            DoCreateUser {| ctx_Err := Some Canceled |} jdoe;
            DoCreateUser context_Background jdoe] []).
Defined.

Lemma migrations_gate_startup_witness :
  net_Listen "tcp" ":8080" ∈ trace (main schema_current ∅ ∅)
  ∧ halt (main migration_fails ∅ ∅) = Exit 1
  ∧ quiet (trace (main migration_fails ∅ ∅)).
Proof.
  split.
  - destruct (migrations_gate_startup schema_current ∅ ∅) as [Hcur _].
    destruct Hcur as (_ & _ & Hgo); [reflexivity|reflexivity|].
    apply (Hgo true true); reflexivity.
  - destruct (migrations_gate_startup migration_fails ∅ ∅) as [_ Hfail].
    destruct (Hfail (errors_New "Dirty database version 1"))
      as (_ & Hexit & _ & Hquiet).
    + right. split; [reflexivity|]. split; [reflexivity|discriminate].
    + split; [exact Hexit|exact Hquiet].
Defined.

Lemma shutdown_is_not_awaited_witness :
  impl_Close_err close_fails ≠ None
  ∧ ∃ st, on_signal close_fails ∅ ∅ = Some st
    ∧ (run_schedule (main_first st) st).2 = Some 0%Z
    ∧ calls (run_schedule (main_first st) st).1
      = [gwServer_Shutdown 10; mp_Shutdown 30; tp_Shutdown 30]
    ∧ (run_schedule (handler_first st) st).2 = Some 1%Z
    ∧ calls (run_schedule (handler_first st) st).1
      = [gwServer_Shutdown 10; grpcServer_GracefulStop; impl_Close].
Proof.
  split; [discriminate|].
  destruct (shutdown_is_not_awaited close_fails ∅ ∅ true true)
    as (st & Hst & (Hzero & Hcalls & _ & _) & _ & Hbad);
    [reflexivity|reflexivity|reflexivity|left; reflexivity|reflexivity
    |reflexivity|reflexivity|reflexivity|reflexivity|].
  destruct Hbad as [Hone Hcalls']; [discriminate|].
  exists st. split; [exact Hst|]. split; [exact Hzero|].
  split; [exact Hcalls|]. split; [exact Hone|exact Hcalls'].
Defined.

Lemma empty_variable_resolves_to_default_witness :
  getEnvOrDefault (<["DB_HOST" := ""]> ∅) "DB_HOST" "localhost" = "localhost"
  ∧ getEnvOrDefault (<["DB_HOST" := "db.internal"]> ∅) "DB_HOST" "localhost"
    = "db.internal"
  ∧ dbConfig (<["DB_HOST" := ""]> ∅) ∅ = dbConfig (delete "DB_HOST" ∅) ∅.
Proof.
  destruct (empty_variable_resolves_to_default ∅ ∅ "DB_HOST" "localhost")
    as (Hempty & _ & Hset & _ & Hcfg).
  split; [exact Hempty|]. split; [|exact Hcfg].
  apply Hset. discriminate.
Defined.

(** ** The unit tests of package [users] and the end-to-end scenario *)

Example TestService_CreateUser_success :
  Service.CreateUser
    (Service.mk ([Ok {| rows_delivered := [[VInt64 1]]; rows_lasterr := None |}]
                 : Scripted.t))
    context_Background
    (Some {| req_Email := "john.doe@example.com"; req_Name := "John Doe" |})
  = (Service.mk [],
     (Some {| User_ := Some {| Id := 1; Email := "john.doe@example.com";
                               Name := "John Doe" |} |}, None)).
Proof. reflexivity. Qed.

Example TestService_CreateUser_database_error :
  Service.CreateUser
    (Service.mk ([Err (errors_New "database connection failed")] : Scripted.t))
    context_Background
    (Some {| req_Email := "jane.doe@example.com"; req_Name := "Jane Doe" |})
  = (Service.mk [], (None, Some (errors_New "database connection failed"))).
Proof. reflexivity. Qed.

Example TestService_CreateUser_scan_error :
  (Service.CreateUser
     (Service.mk ([Ok {| rows_delivered := [[VString "invalid"]];
                         rows_lasterr := None |}] : Scripted.t))
     context_Background
     (Some {| req_Email := "test@example.com"; req_Name := "Test User" |})).2.1
  = None.
Proof. reflexivity. Qed.

Example TestService_ListUsers_multiple :
  Service.ListUsers
    (Service.mk
       ([Ok {| rows_delivered :=
                 [[VInt64 1; VString "john.doe@example.com"; VString "John Doe"];
                  [VInt64 2; VString "jane.smith@example.com";
                   VString "Jane Smith"]];
               rows_lasterr := None |}] : Scripted.t))
    context_Background Build_ListUsersRequest
  = (Service.mk [],
     (Some {| Users :=
                [{| Id := 1; Email := "john.doe@example.com";
                    Name := "John Doe" |};
                 {| Id := 2; Email := "jane.smith@example.com";
                    Name := "Jane Smith" |}] |}, None)).
Proof. reflexivity. Qed.

Example TestService_ListUsers_empty :
  Service.ListUsers
    (Service.mk ([Ok {| rows_delivered := []; rows_lasterr := None |}]
                 : Scripted.t))
    context_Background Build_ListUsersRequest
  = (Service.mk [], (Some {| Users := [] |}, None)).
Proof. reflexivity. Qed.

Example TestService_ListUsers_query_fails :
  Service.ListUsers
    (Service.mk ([Err (errors_New "failed to query database")] : Scripted.t))
    context_Background Build_ListUsersRequest
  = (Service.mk [], (None, Some (errors_New "failed to query database"))).
Proof. reflexivity. Qed.

(** POST [jdoe] on the migrated store, then GET. *)
Example end_to_end_scenario :
  (run fresh_service
     [DoCreateUser context_Background jdoe;
      DoListUsers context_Background Build_ListUsersRequest]).2
  = [CreateUserReply (Some {| User_ := Some (jdoe_user 1) |}, None);
     ListUsersReply (Some {| Users := [jdoe_user 1] |}, None)].
Proof. reflexivity. Qed.

(** The loop does not look at the error that ended the iteration: rows
    delivered before it are returned with a nil error. *)
Example iteration_error_is_not_consulted :
  Service.ListUsers
    (Service.mk
       ([Ok {| rows_delivered :=
                 [[VInt64 1; VString "john.doe@example.com"; VString "John Doe"]];
               rows_lasterr := Some (errors_New "driver: bad connection") |}]
        : Scripted.t))
    context_Background Build_ListUsersRequest
  = (Service.mk [],
     (Some {| Users := [{| Id := 1; Email := "john.doe@example.com";
                           Name := "John Doe" |}] |}, None)).
Proof. reflexivity. Qed.


(** * Further properties of the handlers *)

Lemma scan_loop_ok_inv (pending : list (list Value)) (acc : list User)
    (resp : ListUsersResponse) :
  scan_loop pending acc = (Some resp, None) →
  ∃ us, Users resp = acc ++ us
        ∧ Forall2 (λ cols u, Scan_User cols = Ok u) pending us.
Proof.
  revert acc. induction pending as [|cols rest IH]; intros acc; simpl.
  - intros [= <-]. exists []. split; [by rewrite app_nil_r|constructor].
  - destruct (Scan_User cols) as [u|e] eqn:Hu; [|by intros [=]].
    intros Hloop. destruct (IH _ Hloop) as (us & Heq & Hall).
    exists (u :: us). split; [by rewrite Heq, <- app_assoc|].
    by constructor.
Qed.

Section AnyHandle.
Context {DB : Type} `{!Queryer DB}.

Lemma Counted_QueryContext (db : DB) (n : nat) (ctx : Context)
    (query : string) (args : list Value) :
  QueryContext (Counted.mk db n) ctx query args =
  (Counted.mk (QueryContext db ctx query args).1 (S n),
   (QueryContext db ctx query args).2).
Proof.
  unfold QueryContext at 1, Counted.queryer; simpl.
  by destruct (QueryContext db ctx query args).
Qed.

(** X1.  Every handler call sends exactly one statement through the handle,
    whether it then succeeds or fails: counting the statements below
    [Service], [Database] or [UsersServer] gives one more after each call,
    and counting changes neither the answer nor the state of the handle
    below. *)
Theorem handlers_send_one_statement (db : DB) (n : nat) (ctx : Context)
    (creq : option CreateUserRequest) (lreq : ListUsersRequest) :
  let c := Counted.mk db n in
  (Service.db (Service.CreateUser (Service.mk c) ctx creq).1
     = Counted.mk (Service.db (Service.CreateUser (Service.mk db) ctx creq).1)
         (S n)
   ∧ (Service.CreateUser (Service.mk c) ctx creq).2
     = (Service.CreateUser (Service.mk db) ctx creq).2)
  ∧ (Service.db (Service.ListUsers (Service.mk c) ctx lreq).1
     = Counted.mk (Service.db (Service.ListUsers (Service.mk db) ctx lreq).1)
         (S n)
   ∧ (Service.ListUsers (Service.mk c) ctx lreq).2
     = (Service.ListUsers (Service.mk db) ctx lreq).2)
  ∧ Counted.statements
      (Database.db (UsersServer.db
         (UsersServer.CreateUser (UsersServer.mk (Database.mk c)) ctx creq).1))
    = S n
  ∧ Counted.statements
      (Database.db (UsersServer.db
         (UsersServer.ListUsers (UsersServer.mk (Database.mk c)) ctx lreq).1))
    = S n.
Proof.
  intros c. unfold c.
  unfold UsersServer.CreateUser, UsersServer.ListUsers, Database.CreateUser,
    Database.GetUsers, Service.CreateUser, Service.ListUsers, QueryRowContext;
    simpl.
  rewrite !Counted_QueryContext.
  destruct (QueryContext db ctx insert_user_sql _) as [db1 [rows1|e1]];
    destruct (QueryContext db ctx select_users_sql []) as [db2 [rows2|e2]];
    simpl; repeat split;
    try (destruct (Row_Scan _ _); done);
    try (destruct (scan_loop _ _); done).
Qed.

(** X2.  A handler never returns a response together with an error, and
    never returns neither: the answer of [CreateUser] and of [ListUsers] is a
    response with a nil error or a nil response with an error.  A returned
    [CreateUser] response always carries a user. *)
Theorem handlers_return_response_or_error (s : Service.t DB) (ctx : Context)
    (creq : option CreateUserRequest) (lreq : ListUsersRequest) :
  ((∃ u, (Service.CreateUser s ctx creq).2 = (Some {| User_ := Some u |}, None))
   ∨ (∃ err, (Service.CreateUser s ctx creq).2 = (None, Some err)))
  ∧ ((∃ resp, (Service.ListUsers s ctx lreq).2 = (Some resp, None))
     ∨ (∃ err, (Service.ListUsers s ctx lreq).2 = (None, Some err))).
Proof.
  split.
  - unfold Service.CreateUser, QueryRowContext.
    destruct (QueryContext _ _ _ _) as [db' [rows|e]]; simpl; [|eauto].
    destruct (Row_Scan _ Scan_userID) as [v|e]; simpl; eauto.
  - unfold Service.ListUsers.
    destruct (QueryContext _ _ _ _) as [db' [rows|e]]; simpl; [|eauto].
    destruct (scan_loop (rows_delivered rows) []) as [resp err] eqn:Hl.
    destruct (scan_loop_never_partial _ _ _ _ Hl)
      as [[-> [e ->]]|[[r ->] ->]]; eauto.
Qed.

(** X3.  When the query succeeds, [ListUsers] succeeds exactly when every
    delivered row scans, and its list then holds one user per delivered row,
    in the order of delivery, each the scan of its row. *)
Theorem ListUsers_lists_every_row (s : Service.t DB) (ctx : Context)
    (req : ListUsersRequest) (db' : DB) (rows : Rows)
    (resp : ListUsersResponse) :
  QueryContext (Service.db s) ctx select_users_sql [] = (db', Ok rows) →
  (Service.ListUsers s ctx req).2 = (Some resp, None)
  ↔ Forall2 (λ cols u, Scan_User cols = Ok u)
      (rows_delivered rows) (Users resp).
Proof.
  intros Hq. unfold Service.ListUsers. rewrite Hq; simpl. split.
  - intros Hs.
    by destruct (scan_loop_ok_inv _ _ _ Hs) as (us & -> & Hall).
  - intros Hall. rewrite (scan_loop_all_ok _ _ [] Hall); simpl.
    by destruct resp.
Qed.

(** X4.  [ListUsers] does not look at the error that ended the iteration
    over the rows: when the rows delivered before it all scan, it returns
    them with a nil error.  [CreateUser] reads its row through [Row.Scan],
    which does report such an error when no row was delivered. *)
Theorem ListUsers_drops_iteration_error (s : Service.t DB) (ctx : Context)
    (lreq : ListUsersRequest) (creq : option CreateUserRequest)
    (db' : DB) (delivered : list (list Value)) (us : list User) (e : error) :
  (QueryContext (Service.db s) ctx select_users_sql []
     = (db', Ok {| rows_delivered := delivered; rows_lasterr := Some e |}) →
   Forall2 (λ cols u, Scan_User cols = Ok u) delivered us →
   (Service.ListUsers s ctx lreq).2 = (Some {| Users := us |}, None))
  ∧ (QueryContext (Service.db s) ctx insert_user_sql
       [VString (GetEmail creq); VString (GetName creq)]
     = (db', Ok {| rows_delivered := []; rows_lasterr := Some e |}) →
     (Service.CreateUser s ctx creq).2 = (None, Some e)).
Proof.
  split.
  - intros Hq Hall. unfold Service.ListUsers. rewrite Hq; simpl.
    by rewrite (scan_loop_all_ok _ _ [] Hall).
  - intros Hq. unfold Service.CreateUser, QueryRowContext. by rewrite Hq.
Qed.
End AnyHandle.


(** * Further properties of the service on the store *)

Lemma both_None (a b : option error) :
  ¬ (a ≠ None ∨ b ≠ None) → a = None ∧ b = None.
Proof.
  intros H. destruct a, b; try done; destruct H; by (left + right).
Qed.

Lemma Pg_ListUsers_state (c : Pg.conn) (ctx : Context) (req : ListUsersRequest) :
  (Service.ListUsers (Service.mk c) ctx req).1 = Service.mk c.
Proof.
  unfold Service.ListUsers, QueryContext, Pg.queryer; cbn -[Pg.exec].
  destruct (ctx_Err ctx); [done|].
  destruct (Pg.link c) eqn:Hlink; [done|].
  rewrite Pg_exec_select; simpl. destruct c; simpl in *. by subst.
Qed.

Lemma Pg_ListUsers_depends (c c' : Pg.conn) (ctx : Context)
    (req : ListUsersRequest) :
  Pg.users (Pg.srv c') = Pg.users (Pg.srv c) → Pg.link c' = Pg.link c →
  (Service.ListUsers (Service.mk c') ctx req).2
  = (Service.ListUsers (Service.mk c) ctx req).2.
Proof.
  intros Hus Hlink.
  unfold Service.ListUsers, QueryContext, Pg.queryer; cbn -[Pg.exec].
  destruct (ctx_Err ctx); [done|]. rewrite Hlink.
  destruct (Pg.link c); [done|].
  rewrite !Pg_exec_select; simpl. unfold Pg.select_users. by rewrite Hus.
Qed.

(** X5.  [ListUsers] never changes the store: table, sequence and link are
    after the call what they were before it, whatever the context and the
    state of the link, so a second [ListUsers] answers as if the first had
    not been made. *)
Theorem ListUsers_leaves_store (c : Pg.conn) (ctx ctx' : Context)
    (req req' : ListUsersRequest) :
  (Service.ListUsers (Service.mk c) ctx req).1 = Service.mk c
  ∧ (Service.ListUsers (Service.ListUsers (Service.mk c) ctx' req').1 ctx req).2
    = (Service.ListUsers (Service.mk c) ctx req).2.
Proof.
  split; [apply Pg_ListUsers_state|]. by rewrite Pg_ListUsers_state.
Qed.

(** X6.  A [CreateUser] that returns an error returns no response and leaves
    the table and the link as they were, so every later [ListUsers] answers
    as it would have without the call; when the context is done or the link
    is down the whole store, sequence included, is untouched. *)
Theorem failed_CreateUser_leaves_table (c c' : Pg.conn) (ctx : Context)
    (req : option CreateUserRequest)
    (out : option CreateUserResponse * option error) :
  Service.CreateUser (Service.mk c) ctx req = (Service.mk c', out) →
  out.2 ≠ None →
  out.1 = None
  ∧ Pg.users (Pg.srv c') = Pg.users (Pg.srv c)
  ∧ Pg.link c' = Pg.link c
  ∧ (ctx_Err ctx ≠ None ∨ Pg.link c ≠ None → c' = c)
  ∧ ∀ ctx' lreq,
      (Service.ListUsers (Service.mk c') ctx' lreq).2
      = (Service.ListUsers (Service.mk c) ctx' lreq).2.
Proof.
  intros Hcall Hfail.
  assert (out.1 = None ∧ Pg.users (Pg.srv c') = Pg.users (Pg.srv c)
          ∧ Pg.link c' = Pg.link c
          ∧ (ctx_Err ctx ≠ None ∨ Pg.link c ≠ None → c' = c))
    as (Hresp & Hus & Hlink & Hsame).
  { destruct (decide (ctx_Err ctx ≠ None ∨ Pg.link c ≠ None)) as [Href|Hlive].
    - destruct (Pg_CreateUser_refused c ctx req Href) as [err Hr].
      rewrite Hr in Hcall. injection Hcall as <- <-. done.
    - assert (ctx_Err ctx = None ∧ Pg.link c = None) as [Hctx Hl].
      { by apply both_None. }
      rewrite Pg_CreateUser_eq in Hcall by done.
      destruct (Pg_insert_user_cases (Pg.srv c) (GetEmail req) (GetName req))
        as [(err & Hr & Hus & _)|(Hins & _)].
      + rewrite Hr in Hcall. injection Hcall as <- <-; simpl.
        repeat split; [done|done|]. intros [?|?]; done.
      + rewrite Hins in Hcall; simpl in Hcall. injection Hcall as <- <-.
        by destruct Hfail. }
  repeat split; try done.
  intros ctx' lreq. by apply Pg_ListUsers_depends.
Qed.

Lemma step_created (s : Service.t Pg.conn) (o : op) :
  Pg.to_User <$> table_of (step s o).1
  = (Pg.to_User <$> table_of s) ++ created_users [(step s o).2].
Proof.
  destruct s as [c]. destruct o as [ctx req|ctx req|st]; simpl.
  - destruct (decide (ctx_Err ctx ≠ None ∨ Pg.link c ≠ None)) as [Href|Hlive].
    { destruct (Pg_CreateUser_refused c ctx req Href) as [err ->]; simpl.
      by rewrite app_nil_r. }
    assert (ctx_Err ctx = None ∧ Pg.link c = None) as [Hctx Hl].
    { by apply both_None. }
    rewrite Pg_CreateUser_eq by done. unfold table_of; simpl.
    destruct (Pg_insert_user_cases (Pg.srv c) (GetEmail req) (GetName req))
      as [(err & Hr & Hus & _)|(Hins & _)].
    + rewrite Hr, Hus; simpl. by rewrite app_nil_r.
    + rewrite Hins; simpl. by rewrite fmap_app.
  - pose proof (Pg_ListUsers_state c ctx req) as HL.
    destruct (Service.ListUsers _ _ _) as [s' out]; simpl in *. subst s'.
    by rewrite app_nil_r.
  - by rewrite app_nil_r.
Qed.

Lemma run_created (ops : list op) (s : Service.t Pg.conn) :
  Pg.to_User <$> table_of (run s ops).1
  = (Pg.to_User <$> table_of s) ++ created_users (run s ops).2.
Proof.
  revert s. induction ops as [|o ops IH]; intros s; simpl.
  - by rewrite app_nil_r.
  - pose proof (step_created s o) as Hstep.
    destruct (step s o) as [s1 r]; simpl in *.
    pose proof (IH s1) as Hrun.
    destruct (run s1 ops) as [s2 rs]; simpl in *.
    rewrite Hrun, Hstep, <- app_assoc. f_equal.
    unfold created_users; simpl.
    by destruct r as [[[[[u|]]|] [e|]]| |].
Qed.

(** X7.  After any run of calls and link changes on any store, a
    [ListUsers] with a live context and the link up returns the users the
    table held before the run followed by the users that the successful
    [CreateUser] calls of the run returned, in the order of those calls:
    every created user is listed, unchanged, and nothing else is. *)
Theorem ListUsers_returns_created_users (s : Service.t Pg.conn)
    (ops : list op) (ctx : Context) (req : ListUsersRequest) :
  ctx_Err ctx = None → Pg.link (Service.db (run s ops).1) = None →
  Service.ListUsers (run s ops).1 ctx req
  = ((run s ops).1,
     (Some {| Users := (Pg.to_User <$> table_of s)
                       ++ created_users (run s ops).2 |}, None)).
Proof.
  intros Hctx Hlink. rewrite <- run_created.
  destruct (run s ops).1 as [c] eqn:Hs; simpl in *.
  by rewrite Pg_ListUsers_ok.
Qed.

Lemma step_exhausted (s : Service.t Pg.conn) (o : op) :
  (Pg.int4_max < Pg.seq_users_id (Pg.srv (Service.db s)))%Z →
  (Pg.int4_max < Pg.seq_users_id (Pg.srv (Service.db (step s o).1)))%Z
  ∧ table_of (step s o).1 = table_of s
  ∧ assigned_ids [(step s o).2] = [].
Proof.
  intros Hfull. destruct s as [c]. destruct o as [ctx req|ctx req|st]; simpl.
  - destruct (decide (ctx_Err ctx ≠ None ∨ Pg.link c ≠ None)) as [Href|Hlive].
    { by destruct (Pg_CreateUser_refused c ctx req Href) as [err ->]. }
    assert (ctx_Err ctx = None ∧ Pg.link c = None) as [Hctx Hl].
    { by apply both_None. }
    rewrite Pg_CreateUser_eq by done. unfold table_of; simpl in *.
    destruct (Pg_insert_user_cases (Pg.srv c) (GetEmail req) (GetName req))
      as [(err & Hr & Hus & Hseq)|(_ & _ & _ & H32 & _)]; [|lia].
    rewrite Hr; simpl. split; [|done].
    destruct Hseq as [->|[-> _]]; [done|lia].
  - pose proof (Pg_ListUsers_state c ctx req) as HL.
    destruct (Service.ListUsers _ _ _) as [s' out]; simpl in *. by subst s'.
  - done.
Qed.

(** X8.  The identifier column is an INTEGER fed by a sequence.  In every
    run from the migrated store the table holds at most 2^31 - 1 users and
    every stored identifier lies between 1 and 2^31 - 1.  Once the sequence
    of a store has passed 2^31 - 1, no [CreateUser] of any later run
    succeeds, and the table stays as it is. *)
Theorem identifiers_fit_INTEGER (ops : list op) (s : Service.t Pg.conn) :
  ((length (table_of (run fresh_service ops).1) ≤ Z.to_nat Pg.int4_max)%nat
   ∧ Forall (λ r, 1 ≤ Pg.id r ≤ Pg.int4_max)%Z
       (table_of (run fresh_service ops).1))
  ∧ ((Pg.int4_max < Pg.seq_users_id (Pg.srv (Service.db s)))%Z →
     assigned_ids (run s ops).2 = []
     ∧ table_of (run s ops).1 = table_of s).
Proof.
  split.
  - destruct (run_spec ops fresh_service Pg_dense_migrated)
      as ((Hids & Hk & _) & _).
    fold (table_of (run fresh_service ops).1) in Hids, Hk.
    split; [lia|].
    assert (Forall (λ i, 1 ≤ i ≤ Pg.int4_max)%Z
              (Pg.ids (Pg.srv (Service.db (run fresh_service ops).1)))) as Hall.
    { rewrite Hids. apply Forall_seqZ. lia. }
    unfold Pg.ids in Hall. by apply Forall_fmap in Hall.
  - revert s. induction ops as [|o ops IH]; intros s Hfull; simpl; [done|].
    destruct (step_exhausted s o Hfull) as (Hfull1 & Ht1 & Ha1).
    destruct (step s o) as [s1 r]; simpl in *.
    destruct (IH s1 Hfull1) as (Ha2 & Ht2).
    destruct (run s1 ops) as [s2 rs]; simpl in *.
    split; [|congruence].
    unfold assigned_ids in *; simpl in *.
    destruct (match r with CreateUserReply out => created_id out | _ => None end);
      [done|]. done.
Qed.


(** * Further properties of the process *)

Lemma three_cases (x : option error) (sentinel : error) :
  x = None ∨ x = Some sentinel ∨ ∃ e, x = Some e ∧ e ≠ sentinel.
Proof.
  destruct x as [e|]; [|by left].
  destruct (decide (e = sentinel)) as [->|Hne]; [by right; left|].
  right; right. eauto.
Qed.

Lemma halt_bind {A B : Type} (m : Proc A) (f : A → Proc B) :
  halt (m ≫= f) =
  match halt m with Return a => halt (f a) | Exit c => Exit c end.
Proof. unfold mbind, Proc_bind. by destruct (halt m). Qed.

Lemma trace_bind {A B : Type} (m : Proc A) (f : A → Proc B) :
  trace (m ≫= f) =
  match halt m with Return a => trace m ++ trace (f a) | Exit _ => trace m end.
Proof. unfold mbind, Proc_bind. by destruct (halt m). Qed.

Lemma calls_app (tr1 tr2 : list event) :
  calls (tr1 ++ tr2) = calls tr1 ++ calls tr2.
Proof. unfold calls. apply List.filter_app. Qed.

(** The calls of [runMigrations]. *)
Lemma calls_runMigrations (o : Outcomes) (config : Config.t) :
  calls (trace (runMigrations o config)) =
  migrate_New "file://migrations" (dbURL config)
  :: (if failed (migrate_New_err o) then [] else [m_Up; m_Close]).
Proof.
  unfold runMigrations, dbURL.
  destruct (migrate_New_err o) as [e|]; [done|].
  destruct (three_cases (m_Up_err o) ErrNoChange)
    as [->|[->|(e & -> & Hne)]].
  - by rewrite decide_False by (intros [H _]; by apply H).
  - by rewrite decide_False by (intros [_ H]; by apply H).
  - by rewrite decide_True by (split; congruence).
Qed.

(** X13.  [runMigrations] closes the migration instance exactly when it
    was created, after [Up], also when [Up] failed; when the instance could
    not be created, neither [Up] nor [Close] is called. *)
Theorem runMigrations_closes_instance (o : Outcomes) (config : Config.t) :
  calls (trace (runMigrations o config)) =
  migrate_New "file://migrations" (dbURL config)
  :: (if failed (migrate_New_err o) then [] else [m_Up; m_Close]).
Proof. apply calls_runMigrations. Qed.

Ltac hb :=
  cbn [halt emit mret Proc_ret os_Exit];
  repeat (rewrite halt_bind; cbn [halt emit mret Proc_ret os_Exit]).

Ltac fin :=
  hb; cbn [is_Err failed failed_unless orb];
  rewrite ?(decide_True (P := _ = _)), ?(decide_False (P := _ = _)) by done;
  hb; done.

Lemma main_exit_status_aux (o : Outcomes) (env flags : gmap string string) :
  exit_status (main o env flags) = if fatal o then 1%Z else 0%Z.
Proof.
  unfold main, fatal, exit_status, exit_if_error.
  generalize (dbConfig env flags). intros config.
  destruct (runMigrations_spec o config) as [_ Hmig].
  rewrite halt_bind; cbn [halt emit].
  destruct (InitOTel_out o) as [tp|e0]; [|by fin].
  rewrite halt_bind; cbn [halt emit].
  destruct (InitOTelMetrics_out o) as [mp|e0]; [|by fin].
  rewrite halt_bind.
  assert (∀ m : Proc unit,
    m = (if mp then
           emit runtime_Start;;
           match runtime_Start_err o with
           | Some _ =>
               emit (slog LevelWarn "failed to start runtime metrics collection")
           | None => mret tt
           end
         else mret tt) → halt m = Return tt) as Hpre.
  { intros m ->. destruct mp; [|done]. hb. by destruct (runtime_Start_err o). }
  rewrite (Hpre _ eq_refl). clear Hpre.
  rewrite halt_bind, Hmig. clear Hmig.
  destruct (migrate_New_err o) as [e0|]; [by fin|].
  destruct (three_cases (m_Up_err o) ErrNoChange)
    as [->|[->|(e0 & -> & Hne)]];
    rewrite ?(decide_True (P := _ = _)), ?(decide_False (P := _ = _)) by done;
    [| |by fin].
  all: hb.
  all: destruct (net_Listen_err o) as [e1|]; [by fin|]; hb.
  all: destruct (users_NewService_err o) as [e2|]; [by fin|]; hb.
  all: destruct (grpc_NewClient_err o) as [e3|]; [by fin|]; hb.
  all: destruct (RegisterUserServiceHandler_err o) as [e4|]; [by fin|]; hb.
  all: destruct (three_cases (gwServer_ListenAndServe_err o) ErrServerClosed)
      as [->|[->|(e5 & -> & Hne)]].
  1, 4: rewrite decide_False by (intros [H _]; by apply H).
  3, 5: rewrite decide_False by (intros [_ H]; by apply H).
  5, 6: rewrite decide_True by (split; congruence).
  5, 6: by fin.
  all: hb; unfold ShutdownOTel, ShutdownOTelMetrics, log_if_error.
  all: destruct mp, tp, (mp_Shutdown_err o), (tp_Shutdown_err o); by fin.
Qed.

(** X10.  The exit status of the main goroutine is 1 exactly when one of
    these fails: either telemetry initialiser, the creation of the migration
    instance, [Up] with another error than [ErrNoChange], the gRPC listener,
    the users service, the gRPC client, the registration of the gateway, or
    [ListenAndServe] with another error than [ErrServerClosed].  Otherwise
    [main] returns, status 0.  A failure to start the runtime metrics or to
    shut a telemetry provider down never changes the status. *)
Theorem main_exit_status (o : Outcomes) (env flags : gmap string string) :
  exit_status (main o env flags) = if fatal o then 1%Z else 0%Z.
Proof. apply main_exit_status_aux. Qed.


Lemma calls_emit_call {B : Type} (e : event) (f : unit → Proc B) :
  is_call e = true → calls (trace (emit e ≫= f)) = e :: calls (trace (f tt)).
Proof. intros He. rewrite emit_bind. unfold calls; simpl. by rewrite He. Qed.

Lemma calls_emit_log {B : Type} (level : Level) (msg : string)
    (f : unit → Proc B) :
  calls (trace (emit (slog level msg) ≫= f)) = calls (trace (f tt)).
Proof. by rewrite emit_bind. Qed.

Lemma calls_bind_Return {A B : Type} (m : Proc A) (f : A → Proc B) (a : A) :
  halt m = Return a →
  calls (trace (m ≫= f)) = calls (trace m) ++ calls (trace (f a)).
Proof. intros Hm. by rewrite trace_bind, Hm, calls_app. Qed.

Lemma calls_exit_if_error {B : Type} (err : option error) (msg : string)
    (f : unit → Proc B) :
  calls (trace (exit_if_error err msg ≫= f))
  = if failed err then [] else calls (trace (f tt)).
Proof. by destruct err. Qed.

Lemma calls_serve_check {B : Type} (err : option error) (msg : string)
    (f : unit → Proc B) :
  calls (trace
    ((if decide (err ≠ None ∧ err ≠ Some ErrServerClosed) then
        emit (slog LevelError msg);; os_Exit 1
      else mret tt) ≫= f))
  = if failed_unless ErrServerClosed err then [] else calls (trace (f tt)).
Proof.
  destruct (three_cases err ErrServerClosed) as [->|[->|(e & -> & Hne)]];
    cbn [failed_unless].
  - by rewrite decide_False by (intros [H _]; by apply H).
  - rewrite decide_False by (intros [_ H]; by apply H).
    by rewrite (decide_True (P := _ = _)).
  - rewrite decide_True by (split; congruence).
    by rewrite (decide_False (P := _ = _)).
Qed.

Lemma calls_deferred (o : Outcomes) (tp mp : bool) :
  calls (trace
    ((if mp then
        err ← ShutdownOTelMetrics o mp ShutdownTimeout;
        log_if_error err "failed to shutdown OpenTelemetry metrics"
      else mret tt);;
     (if tp then
        err ← ShutdownOTel o tp ShutdownTimeout;
        log_if_error err "failed to shutdown OpenTelemetry traces"
      else mret tt)))
  = (if mp then [mp_Shutdown 30] else []) ++ (if tp then [tp_Shutdown 30] else []).
Proof.
  unfold ShutdownOTel, ShutdownOTelMetrics, log_if_error, ShutdownTimeout.
  by destruct mp, tp, (mp_Shutdown_err o), (tp_Shutdown_err o).
Qed.

(** The calls of [main] are the ones listed step by step. *)
Lemma calls_main (o : Outcomes) (env flags : gmap string string) :
  calls (trace (main o env flags)) = calls_of_main o (dbConfig env flags).
Proof.
  unfold main, calls_of_main.
  generalize (dbConfig env flags). intros config.
  destruct (runMigrations_spec o config) as [_ Hmig].
  pose proof (calls_runMigrations o config) as Hcalls.
  rewrite calls_emit_call by done; cbn beta. f_equal.
  destruct (InitOTel_out o) as [tp|e0]; [|by rewrite calls_emit_log].
  rewrite calls_emit_call by done; cbn beta. f_equal.
  destruct (InitOTelMetrics_out o) as [mp|e0]; [|by rewrite calls_emit_log].
  match goal with
  | |- calls (trace (?m ≫= _)) = _ =>
      assert (halt m = Return tt
              ∧ calls (trace m) = if mp then [runtime_Start] else [])
        as [Hpre Hpc]
  end.
  { destruct mp; [|done]. by destruct (runtime_Start_err o). }
  rewrite (calls_bind_Return _ _ _ Hpre), Hpc. f_equal.
  rewrite (calls_bind_Return _ _ _ Hmig), Hcalls, calls_exit_if_error.
  clear Hmig Hcalls Hpre Hpc.
  destruct (migrate_New_err o) as [e0|]; [done|].
  cbn [failed app]. do 3 f_equal.
  assert (failed
            match m_Up_err o with
            | Some err =>
                if decide (err = ErrNoChange) then None
                else Some (Errorf_w "failed to run migrations" err)
            | None => None
            end = failed_unless ErrNoChange (m_Up_err o)) as ->.
  { destruct (m_Up_err o) as [e|]; [|done]. simpl. by case_decide. }
  destruct (failed_unless ErrNoChange (m_Up_err o)); [done|].
  rewrite calls_emit_call by done; cbn beta. f_equal.
  rewrite calls_exit_if_error.
  destruct (failed (net_Listen_err o)); [done|].
  rewrite calls_emit_call by done; cbn beta. f_equal.
  rewrite calls_exit_if_error.
  destruct (failed (users_NewService_err o)); [done|].
  do 2 (rewrite calls_emit_call by done; cbn beta; f_equal).
  rewrite calls_exit_if_error.
  destruct (failed (grpc_NewClient_err o)); [done|].
  rewrite calls_emit_call by done; cbn beta. f_equal.
  rewrite calls_exit_if_error.
  destruct (failed (RegisterUserServiceHandler_err o)); [done|].
  do 2 (rewrite calls_emit_call by done; cbn beta; f_equal).
  rewrite calls_emit_log; cbn beta.
  rewrite calls_emit_call by done; cbn beta. f_equal.
  cbn zeta. rewrite calls_serve_check.
  destruct (failed_unless ErrServerClosed (gwServer_ListenAndServe_err o));
    [done|].
  apply calls_deferred.
Qed.


Ltac solve_prefix :=
  cbn [app]; repeat first [apply prefix_nil | apply prefix_cons]; done.

(** X11.  The calls of [main] are always an initial part of one fixed
    sequence: telemetry, runtime metrics, migrations, the gRPC listener, the
    users service, the gRPC server goroutine, the gateway's client and
    registration, the signal handler, the gateway, and last the deferred
    shutdowns of the metrics and then the trace provider.  No step is made
    after one that ended the process, none is made out of order, and a start
    without a fatal failure makes all of them. *)
Theorem main_calls_in_order (o : Outcomes) (env flags : gmap string string) :
  (∃ tp mp, calls (trace (main o env flags))
            `prefix_of` full_start (dbConfig env flags) tp mp)
  ∧ (fatal o = false → ∀ tp mp,
       InitOTel_out o = Ok tp → InitOTelMetrics_out o = Ok mp →
       calls (trace (main o env flags)) = full_start (dbConfig env flags) tp mp).
Proof.
  rewrite calls_main. unfold calls_of_main, full_start, fatal. split.
  - destruct (InitOTel_out o) as [tp|e0];
      [|exists true, true; solve_prefix].
    destruct (InitOTelMetrics_out o) as [mp|e0];
      [|exists true, true; solve_prefix].
    exists tp, mp.
    destruct mp, tp, (failed (migrate_New_err o)),
      (failed_unless ErrNoChange (m_Up_err o)), (failed (net_Listen_err o)),
      (failed (users_NewService_err o)), (failed (grpc_NewClient_err o)),
      (failed (RegisterUserServiceHandler_err o)),
      (failed_unless ErrServerClosed (gwServer_ListenAndServe_err o));
      solve_prefix.
  - intros Hok tp mp Htp Hmp. rewrite Htp, Hmp in *. simpl in Hok.
    repeat (apply orb_false_elim in Hok as [Hok ?]).
    repeat match goal with H : _ = false |- _ => rewrite H; clear H end.
    done.
Qed.

Lemma no_shutdown_calls (tr : list event) :
  Forall (λ ev, is_telemetry_shutdown ev = false) (calls tr) →
  Forall (λ ev, is_telemetry_shutdown ev = false) tr.
Proof.
  induction tr as [|ev tr IH]; [done|]. unfold calls; simpl.
  destruct ev; simpl; intros H;
    first [ constructor; [done|apply IH, H]
          | inversion H; subst; constructor; [done|by apply IH] ].
Qed.

(** X12.  When [main] ends the process with status 1 it has not shut any
    telemetry provider down: the deferred shutdowns run only when [main]
    returns, so nothing is flushed on a fatal failure, the failure of
    [ListenAndServe] included. *)
Theorem fatal_exit_skips_telemetry_shutdown (o : Outcomes)
    (env flags : gmap string string) :
  fatal o = true →
  exit_status (main o env flags) = 1%Z
  ∧ Forall (λ ev, is_telemetry_shutdown ev = false) (trace (main o env flags)).
Proof.
  intros Hfatal.
  assert (exit_status (main o env flags) = if fatal o then 1%Z else 0%Z) as ->.
  { clear Hfatal. revert o env flags. exact main_exit_status_aux. }
  split; [by rewrite Hfatal|].
  apply no_shutdown_calls. rewrite calls_main.
  unfold calls_of_main, fatal in *.
  destruct (InitOTel_out o) as [tp|e0]; [|by repeat constructor].
  destruct (InitOTelMetrics_out o) as [mp|e0]; [|by repeat constructor].
  simpl in Hfatal.
  destruct mp, (failed (migrate_New_err o)),
    (failed_unless ErrNoChange (m_Up_err o)), (failed (net_Listen_err o)),
    (failed (users_NewService_err o)), (failed (grpc_NewClient_err o)),
    (failed (RegisterUserServiceHandler_err o)),
    (failed_unless ErrServerClosed (gwServer_ListenAndServe_err o));
    try discriminate Hfatal; by repeat constructor.
Qed.


(** * Further properties of the configuration *)

Lemma append_cons (x : ascii) (a b : string) :
  String x a +:+ b = String x (a +:+ b).
Proof. reflexivity. Qed.

Lemma append_nil_l (b : string) : "" +:+ b = b.
Proof. reflexivity. Qed.


Lemma append_nil_r (a : string) : a +:+ "" = a.
Proof. induction a as [|x a IH]; [done|]. by rewrite append_cons, IH. Qed.

Lemma length_append (a b : string) :
  String.length (a +:+ b) = String.length a + String.length b.
Proof.
  induction a as [|x a IH]; [done|]. rewrite append_cons; simpl.
  by rewrite IH.
Qed.

(** X9.  For each database setting, a flag given on the command line
    decides, whatever its value, the empty string included, and whatever the
    environment holds; without the flag the environment variable decides
    when it is set and not empty; otherwise the default does. *)
Theorem flag_overrides_environment (env flags : gmap string string) :
  let resolved (name key d : string) : string :=
    match flags !! name with
    | Some v => v
    | None =>
        match env !! key with
        | Some v => if decide (v = "") then d else v
        | None => d
        end
    end in
  dbConfig env flags =
  {| Config.Host := resolved "db-host" "DB_HOST" "localhost";
     Config.Port := resolved "db-port" "DB_PORT" "5432";
     Config.User := resolved "db-user" "DB_USER" "postgres";
     Config.Password := resolved "db-password" "DB_PASSWORD" "postgres";
     Config.DBName := resolved "db-name" "DB_NAME" "go_api_template";
     Config.SSLMode := resolved "db-ssl-mode" "DB_SSLMODE" "disable" |}.
Proof.
  assert (∀ name key d,
    flag_String flags name (getEnvOrDefault env key d) =
    match flags !! name with
    | Some v => v
    | None =>
        match env !! key with
        | Some v => if decide (v = "") then d else v
        | None => d
        end
    end) as Hres.
  { intros name key d. unfold flag_String, getEnvOrDefault, Getenv.
    destruct (flags !! name) as [v|]; [done|]; simpl.
    destruct (env !! key) as [v|]; simpl; [|done].
    by destruct (decide (v = "")) as [->|Hne];
      [rewrite decide_False by auto|rewrite decide_True]. }
  intros resolved. unfold dbConfig, dbHost, dbPort, dbUser, dbPassword,
    dbName, dbSSLMode, resolved. by rewrite !Hres.
Qed.



(** * Further properties of the telemetry set-up *)

Lemma substring_0_append (p r : string) :
  substring 0 (String.length p) (p +:+ r) = p.
Proof.
  induction p as [|x p IH]; simpl; [by destruct r|].
  rewrite ?append_cons; simpl. by rewrite IH.
Qed.

Lemma substring_all (r : string) : substring 0 (String.length r) r = r.
Proof. induction r as [|x r IH]; simpl; [done|by rewrite IH]. Qed.

Lemma substring_skip_append (p r : string) (n : nat) :
  substring (String.length p) n (p +:+ r) = substring 0 n r.
Proof. induction p as [|x p IH]; [done|]. by rewrite append_cons. Qed.

Lemma HasPrefix_append (p r : string) : strings_HasPrefix (p +:+ r) p = true.
Proof.
  unfold strings_HasPrefix. rewrite substring_0_append, length_append.
  rewrite !bool_decide_true; [done|done|lia].
Qed.

Lemma TrimPrefix_append (p r : string) : strings_TrimPrefix (p +:+ r) p = r.
Proof.
  unfold strings_TrimPrefix. rewrite HasPrefix_append, substring_skip_append.
  rewrite length_append.
  replace (String.length p + String.length r - String.length p)
    with (String.length r) by lia.
  apply substring_all.
Qed.

Lemma HasSuffix_slash (r : string) : strings_HasSuffix (r +:+ "/") "/" = true.
Proof.
  unfold strings_HasSuffix. rewrite length_append; simpl.
  replace (String.length r + 1 - 1) with (String.length r) by lia.
  rewrite substring_skip_append; simpl.
  rewrite bool_decide_true by lia. done.
Qed.

Lemma TrimSuffix_slash (r : string) : strings_TrimSuffix (r +:+ "/") "/" = r.
Proof.
  unfold strings_TrimSuffix. rewrite HasSuffix_slash, length_append; simpl.
  replace (String.length r + 1 - 1) with (String.length r) by lia.
  apply substring_0_append.
Qed.

Lemma substring_one_elem (s : string) (n : nat) (c : ascii) :
  substring n 1 s = String c "" → c ∈ list_ascii_of_string s.
Proof.
  revert n. induction s as [|x s IH]; intros n; simpl.
  - by destruct n.
  - destruct n as [|n]; simpl.
    + intros [= -> _]. left.
    + intros Hsub. right. by eapply IH.
Qed.

Lemma TrimSuffix_no_slash (h : string) :
  "/"%char ∉ list_ascii_of_string h → strings_TrimSuffix h "/" = h.
Proof.
  intros Hno. unfold strings_TrimSuffix, strings_HasSuffix.
  case_bool_decide as Hlen; [|done]. simpl in *.
  case_bool_decide as Hsub; [|done].
  destruct Hno. by eapply substring_one_elem.
Qed.

(** A host name without a slash, with or without a slash after it, starts
    with neither scheme. *)
Lemma HasPrefix_scheme_free (h slash scheme : string) :
  "/"%char ∉ list_ascii_of_string h →
  slash = "" ∨ slash = "/" →
  scheme = "https://" ∨ scheme = "http://" →
  strings_HasPrefix (h +:+ slash) scheme = false.
Proof.
  intros Hno Hslash Hscheme. unfold strings_HasPrefix.
  apply andb_false_iff. right. apply bool_decide_false. intros Hsub.
  destruct Hscheme as [->| ->], Hslash as [->| ->]; simpl in Hsub;
    repeat (destruct h as [|? h];
            [simpl in Hsub; discriminate|];
            rewrite append_cons in Hsub; simpl in Hsub;
            injection Hsub as -> Hsub;
            try (apply Hno; simpl; by repeat constructor)).
Qed.

Lemma TrimSuffix_host (h slash : string) :
  "/"%char ∉ list_ascii_of_string h →
  slash = "" ∨ slash = "/" →
  strings_TrimSuffix (h +:+ slash) "/" = h.
Proof.
  intros Hno [->| ->].
  - rewrite append_nil_r. by apply TrimSuffix_no_slash.
  - apply TrimSuffix_slash.
Qed.

(** X15.  The workspace URL may be given as the bare host name, with
    [https://] or [http://] before it, and with or without one slash after
    it: once the surrounding blanks are trimmed, all six spellings of a host
    name that holds no slash are normalised to that host name. *)
Theorem workspace_URL_spellings (lib : OTel.Library)
    (url h scheme slash : string) :
  "/"%char ∉ list_ascii_of_string h →
  scheme = "" ∨ scheme = "https://" ∨ scheme = "http://" →
  slash = "" ∨ slash = "/" →
  OTel.strings_TrimSpace lib url = scheme +:+ h +:+ slash →
  OTel.workspaceURL_of lib url = h.
Proof.
  intros Hno Hscheme Hslash Htrim. unfold OTel.workspaceURL_of.
  rewrite Htrim. destruct Hscheme as [->|[->| ->]].
  - rewrite append_nil_l.
    rewrite !(HasPrefix_scheme_free h slash) by auto.
    by apply TrimSuffix_host.
  - rewrite HasPrefix_append, TrimPrefix_append. by apply TrimSuffix_host.
  - assert (strings_HasPrefix ("http://" +:+ h +:+ slash) "https://" = false)
      as ->.
    { unfold strings_HasPrefix. apply andb_false_iff. right.
      apply bool_decide_false. rewrite !append_cons. simpl.
      discriminate. }
    rewrite HasPrefix_append, TrimPrefix_append. by apply TrimSuffix_host.
Qed.


Lemma missing_trace_vars_spec (config : OTelConfig.t) (v : string) :
  v ∈ OTel.missing_trace_vars config ↔
  (v = "DATABRICKS_WORKSPACE_URL" ∧ OTelConfig.WorkspaceURL config = "")
  ∨ (v = "DATABRICKS_TOKEN" ∧ OTelConfig.Token config = "")
  ∨ (v = "DATABRICKS_UC_TABLE_NAME" ∧ OTelConfig.UCTableName config = "").
Proof.
  unfold OTel.missing_trace_vars.
  destruct (decide (OTelConfig.WorkspaceURL config = "")),
    (decide (OTelConfig.Token config = "")),
    (decide (OTelConfig.UCTableName config = ""));
    simpl; rewrite ?elem_of_cons, ?elem_of_nil; intuition congruence.
Qed.

Lemma missing_metric_vars_spec (config : OTelConfig.t) (v : string) :
  v ∈ OTel.missing_metric_vars config ↔
  (v = "DATABRICKS_WORKSPACE_URL" ∧ OTelConfig.WorkspaceURL config = "")
  ∨ (v = "DATABRICKS_TOKEN" ∧ OTelConfig.Token config = "")
  ∨ (v = "DATABRICKS_UC_METRICS_TABLE_NAME"
     ∧ OTelConfig.UCMetricsTableName config = "").
Proof.
  unfold OTel.missing_metric_vars.
  destruct (decide (OTelConfig.WorkspaceURL config = "")),
    (decide (OTelConfig.Token config = "")),
    (decide (OTelConfig.UCMetricsTableName config = ""));
    simpl; rewrite ?elem_of_cons, ?elem_of_nil; intuition congruence.
Qed.

(** X16.  [InitOTel] creates an exporter exactly when the workspace URL, the
    token and the table name are all set.  When one of them is empty it
    returns a nil provider and a nil error, warns with the names of exactly
    the empty ones, and installs the no-op tracer provider and the
    propagator, so that the application goes on without export.
    [InitOTelMetrics] does the same with the metrics table name and the
    no-op meter provider. *)
Theorem InitOTel_without_configuration (lib : OTel.Library)
    (env : gmap string string) (config : OTelConfig.t) :
  let unset_traces :=
    OTelConfig.WorkspaceURL config = "" ∨ OTelConfig.Token config = ""
    ∨ OTelConfig.UCTableName config = "" in
  let unset_metrics :=
    OTelConfig.WorkspaceURL config = "" ∨ OTelConfig.Token config = ""
    ∨ OTelConfig.UCMetricsTableName config = "" in
  let t := OTel.InitOTel lib env config in
  let m := OTel.InitOTelMetrics lib env config in
  (unset_traces ↔ Forall (λ s, OTel.creates_exporter s = false) (OTel.steps t))
  ∧ (unset_traces →
     OTel.provider t = false ∧ OTel.err t = None
     ∧ OTel.steps t =
       [OTel.slog_Warn "OpenTelemetry Databricks exporter not configured"
          (strings_Join (OTel.missing_trace_vars config) ", ");
        OTel.SetTracerProvider true; OTel.SetTextMapPropagator]
     ∧ OTel.missing_trace_vars config ≠ []
     ∧ ∀ v, v ∈ OTel.missing_trace_vars config ↔
         (v = "DATABRICKS_WORKSPACE_URL" ∧ OTelConfig.WorkspaceURL config = "")
         ∨ (v = "DATABRICKS_TOKEN" ∧ OTelConfig.Token config = "")
         ∨ (v = "DATABRICKS_UC_TABLE_NAME"
            ∧ OTelConfig.UCTableName config = ""))
  ∧ (unset_metrics ↔ Forall (λ s, OTel.creates_exporter s = false) (OTel.steps m))
  ∧ (unset_metrics →
     OTel.provider m = false ∧ OTel.err m = None
     ∧ OTel.steps m =
       [OTel.slog_Warn
          "OpenTelemetry Databricks metrics exporter not configured"
          (strings_Join (OTel.missing_metric_vars config) ", ");
        OTel.SetMeterProvider true]
     ∧ OTel.missing_metric_vars config ≠ []
     ∧ ∀ v, v ∈ OTel.missing_metric_vars config ↔
         (v = "DATABRICKS_WORKSPACE_URL" ∧ OTelConfig.WorkspaceURL config = "")
         ∨ (v = "DATABRICKS_TOKEN" ∧ OTelConfig.Token config = "")
         ∨ (v = "DATABRICKS_UC_METRICS_TABLE_NAME"
            ∧ OTelConfig.UCMetricsTableName config = "")).
Proof.
  intros unset_traces unset_metrics t m.
  unfold t, m, OTel.InitOTel, OTel.InitOTelMetrics.
  fold unset_traces unset_metrics.
  split; [|split; [|split]].
  - destruct (decide unset_traces) as [Hu|Hs]; simpl.
    { split; [by repeat constructor|done]. }
    split; [done|]. intros Hall. exfalso.
    destruct (OTel.otlptracehttp_New lib _ _);
      [|destruct (OTel.resource_New lib _ _)];
      simpl in Hall; by inversion Hall.
  - intros Hu. rewrite decide_True by done; simpl.
    repeat split; try apply missing_trace_vars_spec.
    intros Hnil.
    assert (∃ v, v ∈ OTel.missing_trace_vars config) as [v Hv].
    { destruct Hu as [Hu|[Hu|Hu]]; eexists; apply missing_trace_vars_spec;
        [left|right; left|right; right]; done. }
    rewrite Hnil in Hv. by apply elem_of_nil in Hv.
  - destruct (decide unset_metrics) as [Hu|Hs]; simpl.
    { split; [by repeat constructor|done]. }
    split; [done|]. intros Hall. exfalso.
    destruct (OTel.otlpmetrichttp_New lib _ _);
      [|destruct (OTel.resource_New lib _ _)];
      simpl in Hall; by inversion Hall.
  - intros Hu. rewrite decide_True by done; simpl.
    repeat split; try apply missing_metric_vars_spec.
    intros Hnil.
    assert (∃ v, v ∈ OTel.missing_metric_vars config) as [v Hv].
    { destruct Hu as [Hu|[Hu|Hu]]; eexists; apply missing_metric_vars_spec;
        [left|right; left|right; right]; done. }
    rewrite Hnil in Hv. by apply elem_of_nil in Hv.
Qed.

Ltac no_Exists H :=
  apply Exists_exists in H as (? & H & ?);
  rewrite ?elem_of_cons, ?elem_of_nil in H;
  intuition (subst; discriminate).

Ltac solve_Exists :=
  repeat first [by apply Exists_cons_hd | apply Exists_cons_tl].

(** X17.  [InitOTel] and [InitOTelMetrics] never return a provider together
    with an error.  They install a global provider exactly when they return
    no error; on an error nothing is installed, and the error wraps the
    error of the exporter or of the resource, whichever failed, which
    [errors.Is] still finds.  A returned provider was built from an exporter
    whose Authorization header is "Bearer " followed by the token, and from
    a resource named after the service name, "go-api-template" when that is
    empty, with the version of the environment. *)
Theorem InitOTel_result (lib : OTel.Library) (env : gmap string string)
    (config : OTelConfig.t) (a : OTel.answer) :
  a = OTel.InitOTel lib env config ∨ a = OTel.InitOTelMetrics lib env config →
  (OTel.err a = None
   ↔ Exists (λ s, OTel.installs_provider s = true) (OTel.steps a))
  ∧ (∀ e, OTel.err a = Some e →
       OTel.provider a = false
       ∧ ∃ msg cause,
           e = Errorf_w msg cause ∧ errors_Is e cause = true
           ∧ ((∃ endpoint headers,
                 OTel.otlptracehttp_New lib endpoint headers = Some cause
                 ∨ OTel.otlpmetrichttp_New lib endpoint headers = Some cause)
              ∨ OTel.resource_New lib (OTel.default_ServiceName config)
                  (getVersion env) = Some cause))
  ∧ (OTel.provider a = true →
     OTel.err a = None
     ∧ OTel.new_resource
         (if decide (OTelConfig.ServiceName config = "")
          then "go-api-template" else OTelConfig.ServiceName config)
         (if decide (Getenv env "SERVICE_VERSION" = "")
          then "unknown" else Getenv env "SERVICE_VERSION")
       ∈ OTel.steps a
     ∧ ∃ endpoint headers,
         (OTel.new_trace_exporter endpoint headers ∈ OTel.steps a
          ∨ OTel.new_metric_exporter endpoint headers ∈ OTel.steps a)
         ∧ headers !! "Authorization"
           = Some ("Bearer " +:+ OTelConfig.Token config)).
Proof.
  assert (getVersion env =
          if decide (Getenv env "SERVICE_VERSION" = "")
          then "unknown" else Getenv env "SERVICE_VERSION") as Hver.
  { unfold getVersion. destruct (decide (Getenv env "SERVICE_VERSION" = ""))
      as [->|Hne]; [done|]. by rewrite decide_True. }
  assert (∀ e, errors_Is e e = true) as Hrefl.
  { intros e. destruct e; simpl; by rewrite ?bool_decide_true. }
  assert (∀ msg cause, errors_Is (Errorf_w msg cause) cause = true) as Hwrap.
  { intros msg cause. simpl. rewrite Hrefl. apply orb_true_r. }
  intros [->| ->]; unfold OTel.InitOTel, OTel.InitOTelMetrics;
    rewrite <- Hver; fold (OTel.default_ServiceName config);
    destruct (decide (_ ∨ _)) as [Hu|Hs]; simpl.
  1, 3: (split; [split; [intros _; solve_Exists|done]|];
         split; [by intros e [=]|by intros [=]]).
  - destruct (OTel.otlptracehttp_New lib _ _) as [e1|] eqn:He1; simpl.
    { split; [split; [done|intros Hex; by no_Exists Hex]|].
      split; [|done]. intros e [= <-]. split; [done|].
      eexists _, _. split; [done|]. split; [apply Hwrap|]. left. eauto. }
    destruct (OTel.resource_New lib _ _) as [e2|] eqn:He2; simpl.
    { split; [split; [done|intros Hex; by no_Exists Hex]|].
      split; [|done]. intros e [= <-]. split; [done|].
      eexists _, _. split; [done|]. split; [apply Hwrap|]. by right. }
    split; [split; [intros _; solve_Exists|done]|].
    split; [done|]. intros _. split; [done|].
    split; [by repeat constructor|].
    eexists _, _. split; [left; by repeat constructor|done].
  - destruct (OTel.otlpmetrichttp_New lib _ _) as [e1|] eqn:He1; simpl.
    { split; [split; [done|intros Hex; by no_Exists Hex]|].
      split; [|done]. intros e [= <-]. split; [done|].
      eexists _, _. split; [done|]. split; [apply Hwrap|]. left. eauto. }
    destruct (OTel.resource_New lib _ _) as [e2|] eqn:He2; simpl.
    { split; [split; [done|intros Hex; by no_Exists Hex]|].
      split; [|done]. intros e [= <-]. split; [done|].
      eexists _, _. split; [done|]. split; [apply Hwrap|]. by right. }
    split; [split; [intros _; solve_Exists|done]|].
    split; [done|]. intros _. split; [done|].
    split; [by repeat constructor|].
    eexists _, _. split; [right; by repeat constructor|done].
Qed.


Lemma Forall_of_calls (P : event → Prop) (tr : list event) :
  (∀ level msg, P (slog level msg)) →
  Forall P (calls tr) → Forall P tr.
Proof.
  intros Hlog. induction tr as [|ev tr IH]; [done|]. unfold calls; simpl.
  destruct (is_call ev) eqn:Hev.
  - intros H. inversion H; subst. constructor; [done|by apply IH].
  - intros H. constructor; [|by apply IH]. by destruct ev.
Qed.

(** X18.  When the workspace URL or the token is not configured, both
    initialisers hand [main] a nil provider without an error, and then
    neither [main] nor the signal handler makes a call that needs a
    provider: the runtime metrics are not started and no provider is shut
    down, on any path. *)
Theorem unconfigured_telemetry_needs_no_provider (lib : OTel.Library)
    (o : Outcomes) (env flags : gmap string string) (tp mp : bool) :
  InitOTel_out o
    = OTel.to_result (OTel.InitOTel lib env (otelConfig env flags)) →
  InitOTelMetrics_out o
    = OTel.to_result (OTel.InitOTelMetrics lib env (otelConfig env flags)) →
  OTelConfig.WorkspaceURL (otelConfig env flags) = ""
  ∨ OTelConfig.Token (otelConfig env flags) = "" →
  InitOTel_out o = Ok tp → InitOTelMetrics_out o = Ok mp →
  tp = false ∧ mp = false
  ∧ Forall (λ ev, needs_provider ev = false) (trace (main o env flags))
  ∧ Forall (λ ev, needs_provider ev = false) (trace (signal_handler o tp mp)).
Proof.
  intros Ht Hm Hunset Htp Hmp.
  assert (InitOTel_out o = Ok false) as Ht'.
  { rewrite Ht. unfold OTel.to_result, OTel.InitOTel.
    by rewrite decide_True by (destruct Hunset; auto). }
  assert (InitOTelMetrics_out o = Ok false) as Hm'.
  { rewrite Hm. unfold OTel.to_result, OTel.InitOTelMetrics.
    by rewrite decide_True by (destruct Hunset; auto). }
  assert (tp = false) as -> by congruence.
  assert (mp = false) as -> by congruence.
  split; [done|]. split; [done|]. split.
  - apply Forall_of_calls; [done|]. rewrite calls_main.
    unfold calls_of_main. rewrite Ht', Hm'.
    destruct (failed (migrate_New_err o)),
      (failed_unless ErrNoChange (m_Up_err o)), (failed (net_Listen_err o)),
      (failed (users_NewService_err o)), (failed (grpc_NewClient_err o)),
      (failed (RegisterUserServiceHandler_err o)),
      (failed_unless ErrServerClosed (gwServer_ListenAndServe_err o));
      by repeat constructor.
  - unfold signal_handler, ShutdownOTel, log_if_error, exit_if_error.
    destruct (gwServer_Shutdown_err o), (impl_Close_err o);
      by repeat constructor.
Qed.

(** * The log handler *)

Section LogHandler.
Context {H R : Type} `{!slog_Handler H R}.

Lemma derive_wrapped (h : H) (ds : list derivation) :
  derive (TraceContextHandler.NewTraceContextHandler h) ds
  = TraceContextHandler.NewTraceContextHandler (derive h ds).
Proof.
  revert h. induction ds as [|d ds IH]; intros h; [done|].
  unfold derive in *; simpl. destruct d; simpl; apply IH.
Qed.

(** X19.  However a trace-context handler was derived through [WithAttrs]
    and [WithGroup], handling a record hands the wrapped handler, derived
    the same way, a record with the same time, level and message whose
    attributes are the caller's, in order, followed by [trace_id] and
    [span_id] when the span of the context is recording and its context is
    valid, and by nothing otherwise.  What the wrapped handler answers is
    returned as it is, and [Enabled] is the wrapped handler's. *)
Theorem TraceContextHandler_keeps_injecting (h : H) (ds : list derivation)
    (ctx : Span) (record : LogRecord) (level : Level) :
  (∃ record',
     h_Handle (derive (TraceContextHandler.NewTraceContextHandler h) ds)
       ctx record
     = h_Handle (derive h ds) ctx record'
     ∧ rec_Time record' = rec_Time record
     ∧ rec_Level record' = rec_Level record
     ∧ rec_Message record' = rec_Message record
     ∧ rec_Attrs record' =
       rec_Attrs record
       ++ (if span_IsRecording ctx && span_IsValid ctx
           then [slog_String "trace_id" (span_TraceID ctx);
                 slog_String "span_id" (span_SpanID ctx)]
           else []))
  ∧ h_Enabled (derive (TraceContextHandler.NewTraceContextHandler h) ds)
      ctx level
    = h_Enabled (derive h ds) ctx level.
Proof.
  rewrite derive_wrapped. split; [|done]. simpl.
  unfold TraceContextHandler.Handle; simpl.
  destruct (span_IsRecording ctx), (span_IsValid ctx); simpl;
    eexists; (split; [done|]); simpl; by rewrite ?app_nil_r.
Qed.
End LogHandler.


(** ** Rows that [ListUsers] cannot read, and the constructors *)

Lemma Scan_User_arity (cols : list Value) :
  length cols ≠ 3%nat → ∃ e, Scan_User cols = Err e.
Proof.
  destruct cols as [|c0 [|c1 [|c2 [|c3 rest]]]]; simpl; intros Hlen;
    try done; by eexists.
Qed.

Lemma Scan_User_NULL (cols : list Value) :
  VNull ∈ cols → ∃ e, Scan_User cols = Err e.
Proof.
  destruct (decide (length cols = 3%nat)) as [Hlen|Hlen];
    [|intros _; by apply Scan_User_arity].
  destruct cols as [|c0 [|c1 [|c2 [|c3 rest]]]]; try done.
  intros Hin. unfold Scan_User, scan_col.
  destruct c0 as [|n0|s0]; [by eexists| |].
  - destruct c1 as [|n1|s1]; [by eexists| |];
      (destruct c2 as [|n2|s2]; [by eexists|exfalso|exfalso]);
      repeat (apply elem_of_cons in Hin as [Hin|Hin]; [discriminate Hin|]);
      by apply elem_of_nil in Hin.
  - cbn [convertAssign_int64]. destruct (ParseInt s0 64); [|by eexists].
    destruct c1 as [|n1|s1]; [by eexists| |];
      (destruct c2 as [|n2|s2]; [by eexists|exfalso|exfalso]);
      repeat (apply elem_of_cons in Hin as [Hin|Hin]; [discriminate Hin|]);
      by apply elem_of_nil in Hin.
Qed.

(** X21.  [ListUsers] selects every column of the table and scans each row
    into exactly three destinations, none of which accepts NULL.  So for any
    handle, when the query succeeds and some delivered row has another
    number of columns than three, or holds a NULL in any column, [ListUsers]
    and [Database.GetUsers] return an error and no users, whatever the other
    rows are. *)
Theorem ListUsers_needs_three_columns {DB : Type} `{!Queryer DB}
    (s : Service.t DB) (ctx : Context) (req : ListUsersRequest)
    (db' : DB) (rows : Rows) (cols : list Value) :
  QueryContext (Service.db s) ctx select_users_sql [] = (db', Ok rows) →
  cols ∈ rows_delivered rows →
  length cols ≠ 3%nat ∨ VNull ∈ cols →
  ∃ err,
    (Service.ListUsers s ctx req).2 = (None, Some err)
    ∧ (Database.GetUsers (Database.mk (Service.db s)) ctx).2
      = (None, Some err).
Proof.
  intros Hq Hin Hbad.
  assert (Hfail : ∃ e, Scan_User cols = Err e).
  { destruct Hbad; [by apply Scan_User_arity|by apply Scan_User_NULL]. }
  destruct (scan_loop_first_failure (rows_delivered rows) [])
    as (err & Hloop & _).
  { apply Exists_exists. by exists cols. }
  exists err. unfold Service.ListUsers, Database.GetUsers.
  cbn [Database.db]. rewrite Hq. cbn [fst snd]. by rewrite Hloop.
Qed.

(** A wrapping error is never the error it wraps. *)
Lemma Errorf_w_neq (e : error) (msg : string) : Errorf_w msg e ≠ e.
Proof.
  revert msg. induction e as [| | | | | |msg0 e IH]; intros msg1 Heq;
    try discriminate Heq.
  injection Heq as _ Heq. by apply (IH msg0).
Qed.

Lemma errors_Is_refl (e : error) : errors_Is e e = true.
Proof. destruct e; cbn [errors_Is]; by rewrite bool_decide_true. Qed.

(** X22.  The three constructors open the store in the same way.  For the
    same configuration and the same answers of [otelsql.Open] and [Ping],
    [NewService], [NewDatabase] and [NewUsersServer] return the same error,
    and each returns a value exactly when that error is nil; the values hold
    the handle that was opened.  The error of [Open] is returned as it is;
    the error of [Ping] is wrapped, and [errors.Is] finds it. *)
Theorem constructors_agree {DB : Type}
    (otelsql_Open : string → string → result DB) (Ping : DB → option error)
    (config : Config.t) :
  let sv := NewService otelsql_Open Ping config in
  let d := NewDatabase otelsql_Open Ping config in
  let us := NewUsersServer otelsql_Open Ping config in
  sv.2 = d.2 ∧ us.2 = d.2
  ∧ sv.1 = (Service.mk ∘ Database.db) <$> d.1
  ∧ us.1 = UsersServer.mk <$> d.1
  ∧ (is_Some d.1 ↔ d.2 = None)
  ∧ (∀ db, d.1 = Some (Database.mk db) ↔
       otelsql_Open "postgres" (connStr config) = Ok db ∧ Ping db = None)
  ∧ (∀ e, otelsql_Open "postgres" (connStr config) = Err e → d.2 = Some e)
  ∧ (∀ db e, otelsql_Open "postgres" (connStr config) = Ok db →
       Ping db = Some e →
       ∃ err, d.2 = Some err ∧ err ≠ e ∧ Unwrap err = Some e
              ∧ errors_Is err e = true).
Proof.
  unfold NewUsersServer, NewService, NewDatabase.
  destruct (otelsql_Open "postgres" (connStr config)) as [db|e];
    [destruct (Ping db) as [e|] eqn:Hping|]; cbn;
    (do 4 (split; [done|])).
  - split; [split; [by intros [? [=]]|by intros [=]]|].
    split.
    { intros db0. split; [by intros [=]|].
      intros [[= <-] Hnone]. by rewrite Hnone in Hping. }
    split; [by intros e0 [=]|].
    intros db0 e0 [= <-] He0. rewrite He0 in Hping.
    injection Hping as ->. eexists. split; [reflexivity|].
    split; [|split; [reflexivity|]].
    + apply Errorf_w_neq.
    + cbn [errors_Is]. rewrite errors_Is_refl. apply orb_true_r.
  - split; [split; [done|by eexists]|].
    split.
    { intros db0. split; [by intros [= ->]|by intros [[= ->] _]]. }
    split; [by intros e0 [=]|].
    intros db0 e0 [= <-] He0. by rewrite He0 in Hping.
  - split; [split; [by intros [? [=]]|by intros [=]]|].
    split.
    { intros db0. split; [by intros [=]|by intros [[=] _]]. }
    split; [by intros e0 [= ->]|].
    by intros db0 e0 [=].
Qed.

Lemma ListUsers_needs_three_columns_witness :
  ∃ err,
    (Service.ListUsers
       (Service.mk
          ([Ok {| rows_delivered :=
                    [[VInt64 1; VString "jdoe@example.com";
                      VString "John Doe"; VString "2024-05-01"]];
                  rows_lasterr := None |}] : Scripted.t))
       context_Background Build_ListUsersRequest).2
    = (None, Some err).
Proof.
  destruct (ListUsers_needs_three_columns
              (Service.mk
                 ([Ok {| rows_delivered :=
                           [[VInt64 1; VString "jdoe@example.com";
                             VString "John Doe"; VString "2024-05-01"]];
                         rows_lasterr := None |}] : Scripted.t))
              context_Background Build_ListUsersRequest [] _
              [VInt64 1; VString "jdoe@example.com"; VString "John Doe";
               VString "2024-05-01"] eq_refl)
    as (err & Hlist & _).
  - apply elem_of_cons. by left.
  - left. discriminate.
  - exists err. exact Hlist.
Defined.


(** ** The further properties at sample inputs *)

Lemma ListUsers_lists_every_row_witness :
  (Service.ListUsers (Service.mk ([Ok cut_short_rows] : Scripted.t))
     context_Background Build_ListUsersRequest).2
  = (Some {| Users := [{| Id := 1; Email := "john.doe@example.com";
                          Name := "John Doe" |}] |}, None).
Proof.
  apply (proj2 (ListUsers_lists_every_row
                  (Service.mk ([Ok cut_short_rows] : Scripted.t))
                  context_Background Build_ListUsersRequest []
                  cut_short_rows _ eq_refl)).
  repeat constructor.
Defined.

Lemma ListUsers_drops_iteration_error_witness :
  (Service.ListUsers (Service.mk ([Ok cut_short_rows] : Scripted.t))
     context_Background Build_ListUsersRequest).2
  = (Some {| Users := [{| Id := 1; Email := "john.doe@example.com";
                          Name := "John Doe" |}] |}, None)
  ∧ (Service.CreateUser
       (Service.mk ([Ok {| rows_delivered := [];
                           rows_lasterr := Some ErrNoRows |}] : Scripted.t))
       context_Background jdoe).2
    = (None, Some ErrNoRows).
Proof.
  split.
  - apply (proj1 (ListUsers_drops_iteration_error
                    (Service.mk ([Ok cut_short_rows] : Scripted.t))
                    context_Background Build_ListUsersRequest jdoe []
                    (rows_delivered cut_short_rows) _
                    (errors_New "driver: bad connection"))).
    + reflexivity.
    + repeat constructor.
  - apply (proj2 (ListUsers_drops_iteration_error
                    (Service.mk ([Ok {| rows_delivered := [];
                                        rows_lasterr := Some ErrNoRows |}]
                                 : Scripted.t))
                    context_Background Build_ListUsersRequest jdoe []
                    [] [] ErrNoRows)).
    reflexivity.
Defined.

Lemma failed_CreateUser_leaves_table_witness :
  ∃ c' e,
    Service.CreateUser exhausted_store context_Background jdoe
    = (Service.mk c', (None, Some e))
    ∧ Pg.users (Pg.srv c') = [jdoe_row]
    ∧ Pg.link c' = None
    ∧ ∀ ctx' lreq,
        (Service.ListUsers (Service.mk c') ctx' lreq).2
        = (Service.ListUsers exhausted_store ctx' lreq).2.
Proof.
  destruct (Service.CreateUser exhausted_store context_Background jdoe)
    as [[c'] [resp err]] eqn:Hcall.
  destruct (failed_CreateUser_leaves_table
              (Service.db exhausted_store) c' context_Background jdoe
              (resp, err) Hcall) as (Hresp & Husers & Hlink & _ & Hlist).
  - vm_compute in Hcall. by injection Hcall as <- <- <-.
  - cbn [fst] in Hresp. subst resp.
    destruct err as [e|].
    + exists c', e. split; [reflexivity|].
      split; [exact Husers|]. split; [exact Hlink|exact Hlist].
    + vm_compute in Hcall. discriminate Hcall.
Defined.

Lemma ListUsers_returns_created_users_witness :
  let ops := [DoCreateUser context_Background jdoe;
              DoLink (Some (errors_New "connection reset"));
              DoCreateUser context_Background jdoe;
              DoLink None;
              DoCreateUser context_Background jdoe] in
  (Service.ListUsers (run (Service.mk one_user) ops).1 context_Background
     Build_ListUsersRequest).2
  = (Some {| Users := [jdoe_user 1; jdoe_user 2; jdoe_user 3] |}, None).
Proof.
  intros ops.
  rewrite (ListUsers_returns_created_users (Service.mk one_user) ops
             context_Background Build_ListUsersRequest eq_refl eq_refl).
  reflexivity.
Defined.

Lemma identifiers_fit_INTEGER_witness :
  let ops := [DoCreateUser context_Background jdoe;
              DoCreateUser context_Background jdoe] in
  (length (table_of (run fresh_service ops).1) ≤ Z.to_nat Pg.int4_max)%nat
  ∧ assigned_ids (run fresh_service ops).2 = [1; 2]%Z
  ∧ assigned_ids (run exhausted_store ops).2 = []
  ∧ table_of (run exhausted_store ops).1 = [jdoe_row].
Proof.
  intros ops.
  destruct (identifiers_fit_INTEGER ops exhausted_store)
    as [[Hlen _] Hfull].
  destruct Hfull as [Hnone Hsame]; [reflexivity|].
  split; [exact Hlen|]. split; [reflexivity|].
  split; [exact Hnone|exact Hsame].
Defined.

Lemma main_calls_in_order_witness :
  calls (trace (main without_telemetry ∅ ∅))
  = full_start (dbConfig ∅ ∅) false false
  ∧ calls (trace (main schema_current ∅ ∅))
    = full_start (dbConfig ∅ ∅) true true.
Proof.
  split.
  - apply (proj2 (main_calls_in_order without_telemetry ∅ ∅));
      reflexivity.
  - apply (proj2 (main_calls_in_order schema_current ∅ ∅)); reflexivity.
Defined.

Lemma fatal_exit_skips_telemetry_shutdown_witness :
  exit_status (main migration_fails ∅ ∅) = 1%Z
  ∧ Forall (λ ev, is_telemetry_shutdown ev = false)
      (trace (main migration_fails ∅ ∅)).
Proof.
  apply (fatal_exit_skips_telemetry_shutdown migration_fails ∅ ∅).
  reflexivity.
Defined.

Lemma workspace_URL_spellings_witness :
  OTel.workspaceURL_of sample_library " https://dbc-1.cloud.databricks.com/ "
  = "dbc-1.cloud.databricks.com"
  ∧ OTel.workspaceURL_of sample_library "dbc-1.cloud.databricks.com"
    = "dbc-1.cloud.databricks.com".
Proof.
  assert (Hfree : "/"%char
                  ∉ list_ascii_of_string "dbc-1.cloud.databricks.com").
  { intros Hin. vm_compute in Hin.
    repeat (apply elem_of_cons in Hin as [Hin|Hin]; [discriminate Hin|]).
    by apply elem_of_nil in Hin. }
  split.
  - apply (workspace_URL_spellings sample_library
             " https://dbc-1.cloud.databricks.com/ "
             "dbc-1.cloud.databricks.com" "https://" "/" Hfree).
    + right; left; reflexivity.
    + right; reflexivity.
    + reflexivity.
  - apply (workspace_URL_spellings sample_library
             "dbc-1.cloud.databricks.com"
             "dbc-1.cloud.databricks.com" "" "" Hfree).
    + left; reflexivity.
    + left; reflexivity.
    + reflexivity.
Defined.

Lemma InitOTel_without_configuration_witness :
  let m := OTel.InitOTelMetrics sample_library ∅ databricks_config in
  OTel.provider m = false ∧ OTel.err m = None
  ∧ OTel.steps m
    = [OTel.slog_Warn
         "OpenTelemetry Databricks metrics exporter not configured"
         "DATABRICKS_UC_METRICS_TABLE_NAME";
       OTel.SetMeterProvider true]
  ∧ ¬ Forall (λ s, OTel.creates_exporter s = false)
        (OTel.steps (OTel.InitOTel sample_library ∅ databricks_config)).
Proof.
  intros m.
  destruct (InitOTel_without_configuration sample_library ∅
              databricks_config) as (Htraces & _ & _ & Hmetrics).
  destruct Hmetrics as (Hp & He & Hs & _); [right; right; reflexivity|].
  split; [exact Hp|]. split; [exact He|]. split; [exact Hs|].
  intros Hall. apply Htraces in Hall.
  destruct Hall as [Hu|[Ht|Hn]]; discriminate.
Defined.

Lemma InitOTel_result_witness :
  let a := OTel.InitOTel sample_library ∅ databricks_config in
  OTel.err a = None
  ∧ OTel.new_resource "go-api-template" "unknown" ∈ OTel.steps a
  ∧ Exists (λ s, OTel.installs_provider s = true) (OTel.steps a).
Proof.
  intros a.
  destruct (InitOTel_result sample_library ∅ databricks_config a)
    as (Hinst & _ & Hprov); [left; reflexivity|].
  destruct Hprov as (He & Hres & _); [reflexivity|].
  split; [exact He|]. split; [exact Hres|]. by apply Hinst.
Defined.

Lemma unconfigured_telemetry_needs_no_provider_witness :
  Forall (λ ev, needs_provider ev = false)
    (trace (main without_telemetry ∅ ∅))
  ∧ Forall (λ ev, needs_provider ev = false)
      (trace (signal_handler without_telemetry false false)).
Proof.
  destruct (unconfigured_telemetry_needs_no_provider sample_library
              without_telemetry ∅ ∅ false false)
    as (_ & _ & Hmain & Hhandler);
    [reflexivity|reflexivity|left; reflexivity|reflexivity|reflexivity|].
  split; [exact Hmain|exact Hhandler].
Defined.

Lemma signal_handler_order_witness :
  calls (trace (signal_handler schema_current true true))
  = [gwServer_Shutdown 10; grpcServer_GracefulStop; impl_Close;
     tp_Shutdown 30; mp_Shutdown 30]
  ∧ halt (signal_handler schema_current true true) = Return tt
  ∧ slog LevelError "failed to shutdown OpenTelemetry traces"
    ∈ trace (signal_handler schema_current true true)
  ∧ calls (trace (signal_handler migration_fails true true))
    = [gwServer_Shutdown 10; grpcServer_GracefulStop; impl_Close]
  ∧ halt (signal_handler migration_fails true true) = Exit 1.
Proof.
  destruct (signal_handler_order schema_current true true)
    as (Hok & _ & Htp & _ & _).
  destruct (signal_handler_order migration_fails true true)
    as (_ & Hbad & _ & _ & _).
  destruct Hok as [Hcalls Hret]; [reflexivity|].
  destruct Hbad as (Hcalls' & _ & Hexit); [discriminate|].
  split; [exact Hcalls|]. split; [exact Hret|].
  split; [apply Htp; [reflexivity|reflexivity|discriminate]|].
  split; [exact Hcalls'|exact Hexit].
Defined.
